(** * The student / course record manager of [Tasks/std_system]

    A shallow embedding of [student.py], [course.py] and [systemmanager.py]
    (and of the sibling [src/PY/STD/student.py]), followed by the properties
    of the enrollment registry that were checked against it.

    Conventions of the embedding:
    - a Python [str] is a [string]; [str.lower] is modelled on ASCII letters;
    - a Python [dict] is an association list in insertion order;
    - the class attributes [Student._id_counter] and [Course._id_counter]
      are fields of the process state [World];
    - a [Student] or [Course] object is reachable only through the
      manager's dictionaries, under its own id, so mutating the object is
      modelled as replacing the dictionary entry in place;
    - [print] appends one message to the [printed] list of the outcome;
      the manager reports every refusal this way and returns [None], the
      only exception the three modules raise is [ValueError];
    - grades are integers ([Z]). *)

From Stdlib Require Import ZArith List String Ascii Bool Lia Sorted.
Import ListNotations.

Local Open Scope string_scope.
Local Open Scope list_scope.
Local Open Scope Z_scope.

(** ** Python values and effects *)

(** The only exception class the three modules raise. *)
Inductive exn : Type :=
| ValueError (msg : string).

(** How a call completes: it returns a value or raises. *)
Inductive completion (A : Type) : Type :=
| Returned (a : A)
| Raised (e : exn).

Arguments Returned {A} a.
Arguments Raised {A} e.

Definition raises {A : Type} (c : completion A) : Prop :=
  exists e, c = Raised e.

(** [x in l] for a list of strings. *)
Definition str_in (x : string) (l : list string) : bool :=
  existsb (String.eqb x) l.

(** [str.lower()] on ASCII text: the letters [A]..[Z] are moved to
    [a]..[z], every other character is kept. *)
Definition lower_ascii (c : ascii) : ascii :=
  let n := nat_of_ascii c in
  if (Nat.leb 65 n && Nat.leb n 90)%bool then ascii_of_nat (n + 32) else c.

Fixpoint lower (s : string) : string :=
  match s with
  | EmptyString => EmptyString
  | String c r => String (lower_ascii c) (lower r)
  end.

(** ** Dictionaries *)

Module Dict.

Section Ops.
Context {K V : Type} (eqb : K -> K -> bool).

(** [d[k]] after the test [k in d]: [None] stands for [k not in d]. *)
Fixpoint get (d : list (K * V)) (k : K) : option V :=
  match d with
  | [] => None
  | (k', v) :: r => if eqb k k' then Some v else get r k
  end.

(** [d[k] = v]: an existing key keeps its place, a new key goes last. *)
Fixpoint set (d : list (K * V)) (k : K) (v : V) : list (K * V) :=
  match d with
  | [] => [(k, v)]
  | (k', v') :: r =>
      if eqb k k' then (k', v) :: r else (k', v') :: set r k v
  end.

(** [del d[k]], used by the source only after [k in d]. *)
Definition del (d : list (K * V)) (k : K) : list (K * V) :=
  filter (fun kv => negb (eqb k (fst kv))) d.

(** [d.values()] *)
Definition values (d : list (K * V)) : list V := map snd d.
End Ops.

End Dict.

Definition dict (K V : Type) : Type := list (K * V).

(** ** [Tasks/std_system/student.py] *)

Module Student.

Record t : Type := mk {
  student_id : Z;
  name : string;
  grades : dict string Z;
  enrolled_courses : list string
}.

Definition set_grades (self : t) (g : dict string Z) : t :=
  mk (student_id self) (name self) g (enrolled_courses self).

Definition set_enrolled_courses (self : t) (l : list string) : t :=
  mk (student_id self) (name self) (grades self) l.

(** [Student(name)], the class counter passed in and out. The counter
    is read and incremented only after the name check. *)
Definition init (_id_counter : Z) (name : string) : completion (t * Z) :=
  if String.eqb name EmptyString then Raised (ValueError "Name cannot be empty")
  else Returned (mk _id_counter name [] [], _id_counter + 1).

Definition add_grade (self : t) (course_id : string) (grade : Z)
  : completion t :=
  if negb ((0 <=? grade) && (grade <=? 100))
  then Raised (ValueError "grades must be between 0 and 100")
  else Returned (set_grades self
                   (Dict.set String.eqb (grades self) course_id grade)).

(** Returns the updated object and what was printed. *)
Definition enroll_in_course (self : t) (course : string)
  : t * list string :=
  if str_in course (enrolled_courses self)
  then (self, [(name self ++ " is already enrolled in " ++ course)%string])
  else (set_enrolled_courses self (enrolled_courses self ++ [course]), []).

End Student.

(** ** [src/PY/STD/student.py], the stricter sibling of [Student] *)

Module StudentSTD.

Definition init := Student.init.

Definition enroll_in_course (self : Student.t) (course : string)
  : completion Student.t :=
  if str_in course (Student.enrolled_courses self)
  then Raised (ValueError ("Already enrolled in " ++ course)%string)
  else Returned (Student.set_enrolled_courses self
                   (Student.enrolled_courses self ++ [course])).

Definition add_grade (self : Student.t) (course_id : string) (grade : Z)
  : completion Student.t :=
  if negb (str_in course_id (Student.enrolled_courses self))
  then Raised (ValueError ("Not enrolled in course " ++ course_id)%string)
  else if negb ((0 <=? grade) && (grade <=? 100))
  then Raised (ValueError "Grade must be between 0 and 100")
  else Returned (Student.set_grades self
                   (Dict.set String.eqb (Student.grades self)
                      course_id grade)).

End StudentSTD.

(** ** [Tasks/std_system/course.py] *)

Module Course.

Record t : Type := mk {
  course_id : Z;
  name : string;
  enrolled_students : list string
}.

Definition set_enrolled_students (self : t) (l : list string) : t :=
  mk (course_id self) (name self) l.

Definition init (_id_counter : Z) (name : string) : t * Z :=
  (mk _id_counter name [], _id_counter + 1).

Definition enroll_student (self : t) (student : string)
  : t * list string :=
  if negb (str_in student (enrolled_students self))
  then (set_enrolled_students self (enrolled_students self ++ [student]),
        [("student enrolled successfully in " ++ name self)%string])
  else (self, [("student is already enrolled in " ++ name self)%string]).

(** [list.remove] drops the first equal element. *)
Fixpoint list_remove (x : string) (l : list string) : list string :=
  match l with
  | [] => []
  | y :: r => if String.eqb x y then r else y :: list_remove x r
  end.

Definition remove_student (self : t) (student : string)
  : t * list string :=
  if str_in student (enrolled_students self)
  then (set_enrolled_students self
          (list_remove student (enrolled_students self)),
        [("student removed from " ++ name self)%string])
  else (self, [("student is not enrolled in " ++ name self)%string]).

End Course.

(** ** [Tasks/std_system/systemmanager.py] *)

(** The process state a [SystemManager] works on: the two class counters
    and the manager's two dictionaries. *)
Record World : Type := mkWorld {
  Student_id_counter : Z;
  Course_id_counter : Z;
  students : dict Z Student.t;
  courses : dict Z Course.t
}.

(** A fresh process with a fresh [SystemManager()]. *)
Definition initial : World := mkWorld 1 1 [] [].

(** What a method call leaves behind: the state, the lines printed, and
    the value returned or exception raised. *)
Record outcome (A : Type) : Type := mkOutcome {
  after : World;
  printed : list string;
  ret : completion A
}.

Arguments mkOutcome {A} after printed ret.
Arguments after {A} o.
Arguments printed {A} o.
Arguments ret {A} o.

Module SystemManager.

Definition add_student (w : World) (name : string) : outcome Z :=
  match Student.init (Student_id_counter w) name with
  | Raised e => mkOutcome w [] (Raised e)
  | Returned (student, counter) =>
      mkOutcome
        (mkWorld counter (Course_id_counter w)
           (Dict.set Z.eqb (students w) (Student.student_id student) student)
           (courses w))
        ["Student added successfully."]
        (Returned (Student.student_id student))
  end.

Definition remove_student (w : World) (student_id : Z) : outcome unit :=
  match Dict.get Z.eqb (students w) student_id with
  | Some student =>
      match Student.enrolled_courses student with
      | [] =>
          mkOutcome
            (mkWorld (Student_id_counter w) (Course_id_counter w)
               (Dict.del Z.eqb (students w) student_id) (courses w))
            ["Student removed successfully."] (Returned tt)
      | _ :: _ =>
          mkOutcome w ["Student has enrolled courses. Cannot remove."]
            (Returned tt)
      end
  | None => mkOutcome w ["Invalid student ID."] (Returned tt)
  end.

Definition add_course (w : World) (name : string) : outcome Z :=
  let (course, counter) := Course.init (Course_id_counter w) name in
  mkOutcome
    (mkWorld (Student_id_counter w) counter (students w)
       (Dict.set Z.eqb (courses w) (Course.course_id course) course))
    ["Course added successfully."]
    (Returned (Course.course_id course)).

Definition remove_course (w : World) (course_id : Z) : outcome unit :=
  match Dict.get Z.eqb (courses w) course_id with
  | Some course =>
      match Course.enrolled_students course with
      | [] =>
          mkOutcome
            (mkWorld (Student_id_counter w) (Course_id_counter w)
               (students w) (Dict.del Z.eqb (courses w) course_id))
            ["Course removed successfully."] (Returned tt)
      | _ :: _ =>
          mkOutcome w ["Course has enrolled students. Cannot remove."]
            (Returned tt)
      end
  | None => mkOutcome w ["Invalid course ID."] (Returned tt)
  end.

Definition enroll_course (w : World) (student_id course_id : Z)
  : outcome unit :=
  match Dict.get Z.eqb (students w) student_id,
        Dict.get Z.eqb (courses w) course_id with
  | Some student, Some course =>
      if negb (str_in (Course.name course)
                 (Student.enrolled_courses student))
      then
        let (student', out1) :=
          Student.enroll_in_course student (Course.name course) in
        let (course', out2) :=
          Course.enroll_student course (Student.name student') in
        mkOutcome
          (mkWorld (Student_id_counter w) (Course_id_counter w)
             (Dict.set Z.eqb (students w) student_id student')
             (Dict.set Z.eqb (courses w) course_id course'))
          (out1 ++ out2 ++ ["Student enrolled in course successfully."])
          (Returned tt)
      else
        mkOutcome w ["Student is already enrolled in the course."]
          (Returned tt)
  | _, _ => mkOutcome w ["Invalid student or course ID."] (Returned tt)
  end.

(** The loop [for course in self.courses.values()] with its
    accumulator [result]. *)
Definition search_step (search_name : string)
    (result : list string) (course : Course.t) : list string :=
  if String.eqb (lower search_name) (lower (Course.name course))
  then result ++ [Course.name course]
  else result.

Definition search_courses (w : World) (search_name : string)
  : outcome (list string) :=
  mkOutcome w []
    (Returned (fold_left (search_step search_name)
                 (Dict.values (courses w)) [])).

Definition record_grade (w : World) (student_id course_id : Z) (grade : Z)
  : outcome unit :=
  match Dict.get Z.eqb (students w) student_id,
        Dict.get Z.eqb (courses w) course_id with
  | Some student, Some course =>
      match Student.add_grade student (Course.name course) grade with
      | Raised e => mkOutcome w [] (Raised e)
      | Returned student' =>
          mkOutcome
            (mkWorld (Student_id_counter w) (Course_id_counter w)
               (Dict.set Z.eqb (students w) student_id student')
               (courses w))
            ["Grade recorded successfully."] (Returned tt)
      end
  | _, _ => mkOutcome w ["Invalid student or course ID."] (Returned tt)
  end.

Definition get_all_students (w : World) : outcome (list Student.t) :=
  mkOutcome w [] (Returned (Dict.values (students w))).

Definition get_all_courses (w : World) : outcome (list Course.t) :=
  mkOutcome w [] (Returned (Dict.values (courses w))).

End SystemManager.

(** ** Sequences of calls *)

(** One call of a client on the manager. *)
Inductive call : Type :=
| AddStudent (name : string)
| RemoveStudent (student_id : Z)
| AddCourse (name : string)
| RemoveCourse (course_id : Z)
| EnrollCourse (student_id course_id : Z)
| SearchCourses (search_name : string)
| RecordGrade (student_id course_id grade : Z)
| GetAllStudents
| GetAllCourses.

(** The values the methods return. *)
Inductive value : Type :=
| VNone
| VInt (i : Z)
| VNames (l : list string)
| VStudents (l : list Student.t)
| VCourses (l : list Course.t).

Definition cast {A : Type} (f : A -> value) (o : outcome A) : outcome value :=
  mkOutcome (after o) (printed o)
    match ret o with
    | Returned a => Returned (f a)
    | Raised e => Raised e
    end.

Definition step (w : World) (c : call) : outcome value :=
  match c with
  | AddStudent name => cast VInt (SystemManager.add_student w name)
  | RemoveStudent i =>
      cast (fun _ => VNone) (SystemManager.remove_student w i)
  | AddCourse name => cast VInt (SystemManager.add_course w name)
  | RemoveCourse i =>
      cast (fun _ => VNone) (SystemManager.remove_course w i)
  | EnrollCourse s c =>
      cast (fun _ => VNone) (SystemManager.enroll_course w s c)
  | SearchCourses q => cast VNames (SystemManager.search_courses w q)
  | RecordGrade s c g =>
      cast (fun _ => VNone) (SystemManager.record_grade w s c g)
  | GetAllStudents => cast VStudents (SystemManager.get_all_students w)
  | GetAllCourses => cast VCourses (SystemManager.get_all_courses w)
  end.

(** A client that makes the calls one after the other and carries on
    after an exception (the state is the one the raising call left). *)
Definition exec (w : World) (cs : list call) : World :=
  fold_left (fun w c => after (step w c)) cs w.

(** The calls with how each completed. *)
Fixpoint trace (w : World) (cs : list call)
  : list (call * completion value) :=
  match cs with
  | [] => []
  | c :: r => (c, ret (step w c)) :: trace (after (step w c)) r
  end.

(** The states a client can bring a fresh process to. *)
Definition reachable (w : World) : Prop :=
  exists cs, w = exec initial cs.

(** The ids that the [add_student] calls of a trace returned, in order. *)
Definition returned_student_ids (tr : list (call * completion value))
  : list Z :=
  flat_map (fun cr =>
              match cr with
              | (AddStudent _, Returned (VInt i)) => [i]
              | _ => []
              end) tr.

(** ** Vocabulary of the properties *)

(** Every key of the two dictionaries lies below the matching class
    counter, as in every state of a running process: a key is the value
    the counter had when the object was made, and the counter only grows. *)
Definition counters_fresh (w : World) : Prop :=
  (forall k s, Dict.get Z.eqb (students w) k = Some s ->
               k < Student_id_counter w) /\
  (forall k c, Dict.get Z.eqb (courses w) k = Some c ->
               k < Course_id_counter w).

(** The enrolled-course list of a registered student, the
    enrolled-student list of a registered course. *)
Definition student_list (w : World) (student_id : Z) : option (list string) :=
  option_map Student.enrolled_courses
    (Dict.get Z.eqb (students w) student_id).

Definition course_list (w : World) (course_id : Z) : option (list string) :=
  option_map Course.enrolled_students
    (Dict.get Z.eqb (courses w) course_id).

(** [enroll_course] took its success branch: it is the only place that
    prints this line. *)
Definition enroll_succeeds (w : World) (student_id course_id : Z) : Prop :=
  In "Student enrolled in course successfully."
     (printed (SystemManager.enroll_course w student_id course_id)).

(** Student and course are registered and each one's list holds the
    other's reference (its name). *)
Definition linked (w : World) (student_id course_id : Z) : Prop :=
  exists s c,
    Dict.get Z.eqb (students w) student_id = Some s /\
    Dict.get Z.eqb (courses w) course_id = Some c /\
    In (Course.name c) (Student.enrolled_courses s) /\
    In (Student.name s) (Course.enrolled_students c).

(** The symmetry of the claim for one registered pair: the student's list
    holds the course's reference exactly when the course's list holds the
    student's. *)
Definition symmetric (w : World) (student_id course_id : Z) : Prop :=
  exists s c,
    Dict.get Z.eqb (students w) student_id = Some s /\
    Dict.get Z.eqb (courses w) course_id = Some c /\
    (In (Course.name c) (Student.enrolled_courses s) <->
     In (Student.name s) (Course.enrolled_students c)).

(** Between [w] and [w'] either both lists were appended to, or neither
    list changed. *)
Definition both_or_neither (w w' : World) (student_id course_id : Z) : Prop :=
  (student_list w' student_id = student_list w student_id /\
   course_list w' course_id = course_list w course_id) \/
  (exists s c,
     Dict.get Z.eqb (students w) student_id = Some s /\
     Dict.get Z.eqb (courses w) course_id = Some c /\
     student_list w' student_id
     = Some (Student.enrolled_courses s ++ [Course.name c]) /\
     course_list w' course_id
     = Some (Course.enrolled_students c ++ [Student.name s])).

(** The test of the search loop: the two names are equal once lower-cased. *)
Definition matches (search_name : string) (c : Course.t) : bool :=
  String.eqb (lower search_name) (lower (Course.name c)).

(** What never changes in an object that takes part in an enrollment:
    the name stays and the list only grows. *)
Definition student_grows (s s' : Student.t) : Prop :=
  Student.name s' = Student.name s /\
  incl (Student.enrolled_courses s) (Student.enrolled_courses s').

Definition course_grows (c c' : Course.t) : Prop :=
  Course.name c' = Course.name c /\
  incl (Course.enrolled_students c) (Course.enrolled_students c').

(** The symmetry invariant over the whole registry: it holds of every
    registered student and every registered course. *)
Definition globally_symmetric (w : World) : Prop :=
  forall student_id s course_id c,
    Dict.get Z.eqb (students w) student_id = Some s ->
    Dict.get Z.eqb (courses w) course_id = Some c ->
    (In (Course.name c) (Student.enrolled_courses s) <->
     In (Student.name s) (Course.enrolled_students c)).

(** What the enrollment bookkeeping sees of a dictionary: under each id
    the object's name and its list of references. *)
Definition view : Type := Z -> option (string * list string).

Definition upd (f : view) (k : Z) (v : option (string * list string)) : view :=
  fun k' => if Z.eqb k' k then v else f k'.

Definition sview (w : World) : view :=
  fun k => option_map
             (fun s => (Student.name s, Student.enrolled_courses s))
             (Dict.get Z.eqb (students w) k).

Definition cview (w : World) : view :=
  fun k => option_map
             (fun c => (Course.name c, Course.enrolled_students c))
             (Dict.get Z.eqb (courses w) k).

(** Two views that fit together: the lists are symmetric, a name belongs
    to one id only, and a list names registered objects only. *)
Record tidy_views (S C : view) : Prop := mkTidy {
  tv_sym : forall i n l j m r,
    S i = Some (n, l) -> C j = Some (m, r) -> (In m l <-> In n r);
  tv_sinj : forall i j n l l',
    S i = Some (n, l) -> S j = Some (n, l') -> i = j;
  tv_cinj : forall i j m r r',
    C i = Some (m, r) -> C j = Some (m, r') -> i = j;
  tv_sclosed : forall j m r n,
    C j = Some (m, r) -> In n r -> exists i l, S i = Some (n, l);
  tv_cclosed : forall i n l m,
    S i = Some (n, l) -> In m l -> exists j r, C j = Some (m, r)
}.

Definition tidy (w : World) : Prop :=
  counters_fresh w /\ tidy_views (sview w) (cview w).

(** Some registered student, some registered course, has this name. *)
Definition student_named (w : World) (name : string) : bool :=
  existsb (fun s => String.eqb (Student.name s) name)
    (Dict.values (students w)).

Definition course_named (w : World) (name : string) : bool :=
  existsb (fun c => String.eqb (Course.name c) name)
    (Dict.values (courses w)).

(** The call does not give a new object the name of a registered one. *)
Definition new_name (w : World) (c : call) : bool :=
  match c with
  | AddStudent name => negb (student_named w name)
  | AddCourse name => negb (course_named w name)
  | _ => true
  end.

Fixpoint all_new (w : World) (cs : list call) : bool :=
  match cs with
  | [] => true
  | c :: r => new_name w c && all_new (after (step w c)) r
  end.

(** [k, k+1, ..., k+n-1] *)
Fixpoint count_from (k : Z) (n : nat) : list Z :=
  match n with
  | O => []
  | S n' => k :: count_from (k + 1) n'
  end.

(** Some states used as examples. *)
Definition amina_biology : World :=
  exec initial [AddStudent "Amina"; AddCourse "Biology"].

Definition amina_enrolled : World :=
  exec initial [AddStudent "Amina"; AddCourse "Biology"; EnrollCourse 1 1].

Definition namesakes : World :=
  exec initial [AddStudent "Ali"; AddStudent "Ali"; AddCourse "Math";
                EnrollCourse 1 1].

(** ** [src/PY/STD/Course.py], the sibling of [Course] *)

Module CourseSTD.

Definition init := Course.init.

Definition enroll_student (self : Course.t) (student : string)
  : Course.t * list string :=
  if negb (str_in student (Course.enrolled_students self))
  then (Course.set_enrolled_students self
          (Course.enrolled_students self ++ [student]),
        [(" enrolled succflly: in " ++ Course.name self)%string])
  else (self, [("is enrolled in " ++ Course.name self)%string]).

Definition remove_student (self : Course.t) (student : string)
  : Course.t * list string :=
  if str_in student (Course.enrolled_students self)
  then (Course.set_enrolled_students self
          (Course.list_remove student (Course.enrolled_students self)),
        [("Student removed from" ++ Course.name self ++ " ")%string])
  else (self, [("Student is enrolled in " ++ Course.name self)%string]).

End CourseSTD.

(** ** Method calls on one [Student] object of [src/PY/STD/student.py] *)

Inductive student_call : Type :=
| EnrollInCourse (course : string)
| AddGrade (course_id : string) (grade : Z).

Definition student_step (self : Student.t) (c : student_call)
  : completion Student.t :=
  match c with
  | EnrollInCourse course => StudentSTD.enroll_in_course self course
  | AddGrade course_id grade => StudentSTD.add_grade self course_id grade
  end.

(** The calls one after the other; a call that raises has not touched
    the object (both methods raise before they assign). *)
Definition student_exec (self : Student.t) (cs : list student_call)
  : Student.t :=
  fold_left (fun s c =>
               match student_step s c with
               | Returned s' => s'
               | Raised _ => s
               end) cs self.

(** ** Vocabulary of the further properties *)

(** The ids that the [add_course] calls of a trace returned, in order. *)
Definition returned_course_ids (tr : list (call * completion value))
  : list Z :=
  flat_map (fun cr =>
              match cr with
              | (AddCourse _, Returned (VInt i)) => [i]
              | _ => []
              end) tr.

(** A dictionary of objects in the order of their ids: the keys grow
    strictly from 1 up to below the counter [n], and each object sits
    under its own id. *)
Definition in_id_order {V : Type} (id : V -> Z) (n : Z) (d : dict Z V)
  : Prop :=
  StronglySorted Z.lt (map fst d) /\
  Forall (fun kv => 1 <= fst kv < n /\ id (snd kv) = fst kv) d.

Definition registry_in_order (w : World) : Prop :=
  in_id_order Student.student_id (Student_id_counter w) (students w) /\
  in_id_order Course.course_id (Course_id_counter w) (courses w).

(** No list of references holds a name twice. *)
Definition nodup_lists (w : World) : Prop :=
  (forall k s, Dict.get Z.eqb (students w) k = Some s ->
               NoDup (Student.enrolled_courses s)) /\
  (forall k c, Dict.get Z.eqb (courses w) k = Some c ->
               NoDup (Course.enrolled_students c)).

(** The grades of one student: one entry per course name, every grade
    from 0 to 100. *)
Definition grades_sound (s : Student.t) : Prop :=
  NoDup (map fst (Student.grades s)) /\
  Forall (fun cg => 0 <= snd cg <= 100) (Student.grades s).

(** Every name in a list is the name of a registered object that has a
    non-empty list itself. *)
Definition no_dangling (w : World) : Prop :=
  (forall k s m,
     Dict.get Z.eqb (students w) k = Some s ->
     In m (Student.enrolled_courses s) ->
     exists j c, Dict.get Z.eqb (courses w) j = Some c /\
                 Course.name c = m /\
                 Course.enrolled_students c <> []) /\
  (forall j c n,
     Dict.get Z.eqb (courses w) j = Some c ->
     In n (Course.enrolled_students c) ->
     exists k s, Dict.get Z.eqb (students w) k = Some s /\
                 Student.name s = n /\
                 Student.enrolled_courses s <> []).

(** The calls that can raise, and when. *)
Definition may_raise (w : World) (c : call) : bool :=
  match c with
  | AddStudent name => String.eqb name EmptyString
  | RecordGrade i j g =>
      match Dict.get Z.eqb (students w) i, Dict.get Z.eqb (courses w) j with
      | Some _, Some _ => (g <? 0) || (100 <? g)
      | _, _ => false
      end
  | _ => false
  end.

(** On views: every name in a list of [S] is the name of an object of
    [C] whose own list is not empty. *)
Definition refs_live (S C : view) : Prop :=
  forall k n l m,
    S k = Some (n, l) -> In m l ->
    exists j r, C j = Some (m, r) /\ r <> [].

(** One more state used as an example. *)
Definition bilal_joined : World :=
  exec initial [AddStudent "Amina"; AddStudent "Bilal"].

(** * Properties *)

(** ** Lookup after update *)

Section DictFacts.
Context {K V : Type} (eqb : K -> K -> bool).
Hypothesis eqb_eq : forall x y, eqb x y = true <-> x = y.

Lemma eqb_refl' : forall x, eqb x x = true.
Proof. intro x. now apply eqb_eq. Qed.

Lemma eqb_neq' : forall x y, x <> y -> eqb x y = false.
Proof.
  intros x y H. destruct (eqb x y) eqn:E; [|reflexivity].
  apply eqb_eq in E. contradiction.
Qed.

Lemma get_set_same : forall (d : list (K * V)) k v,
  Dict.get eqb (Dict.set eqb d k v) k = Some v.
Proof.
  induction d as [|[k' v'] r IH]; intros k v; simpl.
  - now rewrite eqb_refl'.
  - destruct (eqb k k') eqn:E; simpl; rewrite E; [reflexivity | apply IH].
Qed.

Lemma get_set_other : forall (d : list (K * V)) k k' v,
  k' <> k -> Dict.get eqb (Dict.set eqb d k v) k' = Dict.get eqb d k'.
Proof.
  induction d as [|[k0 v0] r IH]; intros k k' v Hne; simpl.
  - now rewrite (eqb_neq' k' k).
  - destruct (eqb k k0) eqn:E; simpl.
    + apply eqb_eq in E. subst k0. now rewrite (eqb_neq' k' k Hne).
    + destruct (eqb k' k0); [reflexivity | now apply IH].
Qed.

Lemma get_del_same : forall (d : list (K * V)) k,
  Dict.get eqb (Dict.del eqb d k) k = None.
Proof.
  induction d as [|[k0 v0] r IH]; intro k; simpl; [reflexivity|].
  destruct (eqb k k0) eqn:E; simpl; [apply IH | rewrite E; apply IH].
Qed.

Lemma get_del_other : forall (d : list (K * V)) k k',
  k' <> k -> Dict.get eqb (Dict.del eqb d k) k' = Dict.get eqb d k'.
Proof.
  induction d as [|[k0 v0] r IH]; intros k k' Hne; simpl; [reflexivity|].
  destruct (eqb k k0) eqn:E; simpl.
  - apply eqb_eq in E. subst k0.
    rewrite (eqb_neq' k' k Hne). now apply IH.
  - destruct (eqb k' k0); [reflexivity | now apply IH].
Qed.

End DictFacts.

Lemma str_in_iff : forall x l, str_in x l = true <-> In x l.
Proof.
  intros x l. unfold str_in. rewrite existsb_exists. split.
  - intros [y [Hy E]]. apply String.eqb_eq in E. now subst.
  - intro H. exists x. split; [assumption | apply String.eqb_refl].
Qed.

(** Case analysis on the lookups and guards of a manager method. *)
Ltac manager_cases :=
  repeat match goal with
  | |- context [match Dict.get ?e ?d ?k with _ => _ end] =>
      destruct (Dict.get e d k) eqn:?
  | |- context [match Student.enrolled_courses ?s with _ => _ end] =>
      destruct (Student.enrolled_courses s) eqn:?
  | |- context [match Course.enrolled_students ?c with _ => _ end] =>
      destruct (Course.enrolled_students c) eqn:?
  | |- context [if ?b then _ else _] => destruct b eqn:?
  end.

(** ** C10: removing a student does not touch the courses *)

(** C10. For every state and every [student_id], [remove_student] leaves
    the manager's [courses] dictionary (every course and its list of
    enrolled students) and the course counter as they were, whether the
    student is removed, the removal is refused, or the id is unknown. *)
Theorem remove_student_keeps_courses : forall w student_id,
  courses (after (SystemManager.remove_student w student_id)) = courses w /\
  Course_id_counter (after (SystemManager.remove_student w student_id))
  = Course_id_counter w.
Proof.
  intros w student_id. unfold SystemManager.remove_student.
  manager_cases; split; reflexivity.
Qed.

(** ** C7: refusals of [remove_student] *)

Lemma amina_enrolled_student :
  Dict.get Z.eqb (students amina_enrolled) 1
  = Some (Student.mk 1 "Amina" [] ["Biology"]).
Proof. reflexivity. Qed.

(** C7, as the claim states it, fails: removing a student who has an
    active enrollment does not fail with an error. [remove_student]
    returns normally (it only prints). *)
Lemma remove_student_enrolled_returns :
  (exists s, Dict.get Z.eqb (students amina_enrolled) 1 = Some s /\
             Student.enrolled_courses s <> []) /\
  ~ raises (ret (SystemManager.remove_student amina_enrolled 1)) /\
  ~ raises (ret (SystemManager.remove_student amina_enrolled 7)).
Proof.
  split; [|split].
  - eexists. split; [apply amina_enrolled_student | discriminate].
  - intros [e H]. discriminate H.
  - intros [e H]. discriminate H.
Qed.

(** C7, amended. For a student with at least one enrolled course,
    [remove_student] is refused: it prints
    "Student has enrolled courses. Cannot remove.", raises nothing,
    leaves the whole state as it was, and the student is still found
    under its id. For an unknown id it prints "Invalid student ID.",
    raises nothing and leaves the state as it was. *)
Theorem remove_student_refused : forall w student_id,
  (forall s,
     Dict.get Z.eqb (students w) student_id = Some s ->
     Student.enrolled_courses s <> [] ->
     SystemManager.remove_student w student_id
     = mkOutcome w ["Student has enrolled courses. Cannot remove."]
         (Returned tt) /\
     Dict.get Z.eqb
       (students (after (SystemManager.remove_student w student_id)))
       student_id = Some s) /\
  (Dict.get Z.eqb (students w) student_id = None ->
   SystemManager.remove_student w student_id
   = mkOutcome w ["Invalid student ID."] (Returned tt)).
Proof.
  intros w student_id. unfold SystemManager.remove_student. split.
  - intros s Hs Hne. rewrite Hs.
    destruct (Student.enrolled_courses s) eqn:E; [congruence|].
    split; [reflexivity | exact Hs].
  - intros Hs. rewrite Hs. reflexivity.
Qed.

(** Amina is enrolled in Biology and cannot be removed; nobody has id 7. *)
Lemma remove_student_refused_witness :
  SystemManager.remove_student amina_enrolled 1
  = mkOutcome amina_enrolled ["Student has enrolled courses. Cannot remove."]
      (Returned tt) /\
  SystemManager.remove_student amina_enrolled 7
  = mkOutcome amina_enrolled ["Invalid student ID."] (Returned tt).
Proof.
  split.
  - apply (proj1 (remove_student_refused amina_enrolled 1)
             (Student.mk 1 "Amina" [] ["Biology"])).
    + reflexivity.
    + discriminate.
  - apply (proj2 (remove_student_refused amina_enrolled 7)). reflexivity.
Defined.

(** ** C6: [add_student] *)

(** C6, as the claim states it, fails: a blank (whitespace-only) name is
    accepted. [Student.__init__] tests [not name], which holds only of the
    empty string. *)
Lemma add_student_blank_accepted :
  SystemManager.add_student initial " "
  = mkOutcome (mkWorld 2 1 [(1, Student.mk 1 " " [] [])] [])
      ["Student added successfully."] (Returned 1) /\
  ~ raises (ret (SystemManager.add_student initial " ")).
Proof.
  split; [reflexivity|]. intros [e H]. discriminate H.
Qed.

(** C6, amended. [add_student name] raises [ValueError] exactly when
    [name] is the empty string, and then changes nothing. For every other
    name (a whitespace-only one too) it makes a student whose id is the
    current value of [Student._id_counter], with no grades and no courses,
    advances the counter by one, stores the student under its id and
    returns that id. *)
Theorem add_student_spec : forall w name,
  (name = EmptyString ->
   SystemManager.add_student w name
   = mkOutcome w [] (Raised (ValueError "Name cannot be empty"))) /\
  (name <> EmptyString ->
   let id := Student_id_counter w in
   let o := SystemManager.add_student w name in
   ret o = Returned id /\
   printed o = ["Student added successfully."] /\
   Student_id_counter (after o) = id + 1 /\
   Course_id_counter (after o) = Course_id_counter w /\
   courses (after o) = courses w /\
   students (after o)
   = Dict.set Z.eqb (students w) id (Student.mk id name [] []) /\
   Dict.get Z.eqb (students (after o)) id
   = Some (Student.mk id name [] [])).
Proof.
  intros w name. unfold SystemManager.add_student, Student.init. split.
  - intros ->. reflexivity.
  - intros Hne. destruct (String.eqb name EmptyString) eqn:E.
    + apply String.eqb_eq in E. contradiction.
    + cbn. repeat split. apply (get_set_same Z.eqb Z.eqb_eq).
Qed.

(** The empty name is rejected, "Bilal" becomes student 2. *)
Lemma add_student_spec_witness :
  SystemManager.add_student amina_enrolled EmptyString
  = mkOutcome amina_enrolled [] (Raised (ValueError "Name cannot be empty")) /\
  ret (SystemManager.add_student amina_enrolled "Bilal") = Returned 2.
Proof.
  split.
  - apply (proj1 (add_student_spec amina_enrolled EmptyString)). reflexivity.
  - apply (proj2 (add_student_spec amina_enrolled "Bilal")). discriminate.
Defined.

(** ** C8: the grade range of [record_grade] *)

Lemma add_grade_in_range : forall s course grade,
  0 <= grade <= 100 ->
  Student.add_grade s course grade
  = Returned (Student.set_grades s
                (Dict.set String.eqb (Student.grades s) course grade)).
Proof.
  intros s course grade [H0 H100]. unfold Student.add_grade.
  apply Z.leb_le in H0, H100. now rewrite H0, H100.
Qed.

Lemma add_grade_out_of_range : forall s course grade,
  grade < 0 \/ 100 < grade ->
  Student.add_grade s course grade
  = Raised (ValueError "grades must be between 0 and 100").
Proof.
  intros s course grade H. unfold Student.add_grade.
  destruct (0 <=? grade) eqn:E0; [|reflexivity].
  destruct (grade <=? 100) eqn:E1; [|reflexivity].
  apply Z.leb_le in E0, E1. lia.
Qed.

(** A grade in the range is stored under the course's name. *)
Lemma record_grade_stores : forall w student_id course_id s c grade,
  Dict.get Z.eqb (students w) student_id = Some s ->
  Dict.get Z.eqb (courses w) course_id = Some c ->
  0 <= grade <= 100 ->
  let o := SystemManager.record_grade w student_id course_id grade in
  ret o = Returned tt /\
  printed o = ["Grade recorded successfully."] /\
  exists s',
    Dict.get Z.eqb (students (after o)) student_id = Some s' /\
    Dict.get String.eqb (Student.grades s') (Course.name c) = Some grade.
Proof.
  intros w student_id course_id s c grade Hs Hc Hg.
  unfold SystemManager.record_grade. rewrite Hs, Hc.
  rewrite add_grade_in_range by assumption. cbn.
  split; [reflexivity | split; [reflexivity|]].
  eexists. split.
  - apply (get_set_same Z.eqb Z.eqb_eq).
  - cbn. apply (get_set_same String.eqb String.eqb_eq).
Qed.

(** A grade outside the range raises and nothing changes. *)
Lemma record_grade_rejects : forall w student_id course_id s c grade,
  Dict.get Z.eqb (students w) student_id = Some s ->
  Dict.get Z.eqb (courses w) course_id = Some c ->
  grade < 0 \/ 100 < grade ->
  SystemManager.record_grade w student_id course_id grade
  = mkOutcome w [] (Raised (ValueError "grades must be between 0 and 100")).
Proof.
  intros w student_id course_id s c grade Hs Hc Hg.
  unfold SystemManager.record_grade. rewrite Hs, Hc.
  now rewrite add_grade_out_of_range by assumption.
Qed.

(** C8. For a registered student and a registered course, [record_grade]
    with grade -1 or 101 fails with [ValueError] (and changes nothing),
    while with grade 0 or 100 it returns normally and afterwards the
    student's [grades] dictionary maps the course (by its name) to that
    grade. *)
Theorem record_grade_boundaries : forall w student_id course_id s c,
  Dict.get Z.eqb (students w) student_id = Some s ->
  Dict.get Z.eqb (courses w) course_id = Some c ->
  (forall grade, grade = -1 \/ grade = 101 ->
     let o := SystemManager.record_grade w student_id course_id grade in
     ret o = Raised (ValueError "grades must be between 0 and 100") /\
     raises (ret o) /\ after o = w) /\
  (forall grade, grade = 0 \/ grade = 100 ->
     let o := SystemManager.record_grade w student_id course_id grade in
     ret o = Returned tt /\
     exists s',
       Dict.get Z.eqb (students (after o)) student_id = Some s' /\
       Dict.get String.eqb (Student.grades s') (Course.name c) = Some grade).
Proof.
  intros w student_id course_id s c Hs Hc. split.
  - intros grade Hg o. subst o.
    rewrite (record_grade_rejects w student_id course_id s c grade Hs Hc)
      by lia.
    split; [reflexivity | split; [eexists; reflexivity | reflexivity]].
  - intros grade Hg.
    destruct (record_grade_stores w student_id course_id s c grade Hs Hc)
      as [Hr [_ Hex]]; [lia|].
    split; assumption.
Qed.

(** Amina's Biology grade: -1 is rejected, 100 is recorded. *)
Lemma record_grade_boundaries_witness :
  raises (ret (SystemManager.record_grade amina_biology 1 1 (-1))) /\
  ret (SystemManager.record_grade amina_biology 1 1 100) = Returned tt.
Proof.
  destruct (record_grade_boundaries amina_biology 1 1
              (Student.mk 1 "Amina" [] []) (Course.mk 1 "Biology" [])
              eq_refl eq_refl) as [Hbad Hgood].
  split.
  - apply (Hbad (-1)). left. reflexivity.
  - apply (Hgood 100). right. reflexivity.
Defined.

(** ** C9: [search_courses] *)

Lemma search_loop : forall search_name cs acc,
  fold_left (SystemManager.search_step search_name) cs acc
  = acc ++ map Course.name (filter (matches search_name) cs).
Proof.
  intros search_name cs. induction cs as [|c r IH]; intro acc; simpl.
  - now rewrite app_nil_r.
  - rewrite IH. unfold SystemManager.search_step, matches.
    destruct (String.eqb (lower search_name) (lower (Course.name c))); simpl.
    + now rewrite <- app_assoc.
    + reflexivity.
Qed.

(** C9. For every query and every state, [search_courses] changes
    nothing, prints nothing and returns exactly the names of the
    registered courses whose lower-cased name equals the lower-cased query
    (whole-name equality, not containment), in the order of the [courses]
    dictionary; so it returns the empty list when no course matches. *)
Theorem search_courses_exact : forall w search_name,
  SystemManager.search_courses w search_name
  = mkOutcome w []
      (Returned (map Course.name
                   (filter (matches search_name)
                      (Dict.values (courses w))))) /\
  ((forall c, In c (Dict.values (courses w)) ->
              lower search_name <> lower (Course.name c)) ->
   ret (SystemManager.search_courses w search_name) = Returned []).
Proof.
  intros w search_name. unfold SystemManager.search_courses.
  rewrite search_loop. simpl. split; [reflexivity|].
  intros Hnone. f_equal.
  induction (Dict.values (courses w)) as [|c r IH]; simpl; [reflexivity|].
  unfold matches at 1.
  destruct (String.eqb (lower search_name) (lower (Course.name c))) eqn:E.
  - apply String.eqb_eq in E. exfalso. apply (Hnone c); [now left | exact E].
  - apply IH. intros c' Hc'. apply Hnone. now right.
Qed.

(** "biology" finds "Biology", the prefix "bio" finds nothing. *)
Lemma search_courses_exact_witness :
  ret (SystemManager.search_courses amina_enrolled "biology")
  = Returned ["Biology"] /\
  ret (SystemManager.search_courses amina_enrolled "bio") = Returned [].
Proof.
  split.
  - rewrite (proj1 (search_courses_exact amina_enrolled "biology")).
    reflexivity.
  - apply (proj2 (search_courses_exact amina_enrolled "bio")).
    intros c [<- | []]. discriminate.
Defined.

(** The examples of the specification: "math" finds "Math" and "MATH"
    but not "Mathematics". *)
Example search_math :
  ret (SystemManager.search_courses
         (exec initial [AddCourse "Math"; AddCourse "Mathematics";
                        AddCourse "MATH"]) "math")
  = Returned ["Math"; "MATH"].
Proof. reflexivity. Qed.

(** ** The three ways [enroll_course] ends *)

Lemma enroll_unknown : forall w student_id course_id,
  Dict.get Z.eqb (students w) student_id = None \/
  Dict.get Z.eqb (courses w) course_id = None ->
  SystemManager.enroll_course w student_id course_id
  = mkOutcome w ["Invalid student or course ID."] (Returned tt).
Proof.
  intros w student_id course_id H. unfold SystemManager.enroll_course.
  destruct H as [H | H]; rewrite H; [reflexivity|].
  destruct (Dict.get Z.eqb (students w) student_id); reflexivity.
Qed.

Lemma enroll_duplicate : forall w student_id course_id s c,
  Dict.get Z.eqb (students w) student_id = Some s ->
  Dict.get Z.eqb (courses w) course_id = Some c ->
  str_in (Course.name c) (Student.enrolled_courses s) = true ->
  SystemManager.enroll_course w student_id course_id
  = mkOutcome w ["Student is already enrolled in the course."] (Returned tt).
Proof.
  intros w student_id course_id s c Hs Hc Hin.
  unfold SystemManager.enroll_course. now rewrite Hs, Hc, Hin.
Qed.

Lemma enroll_fresh : forall w student_id course_id s c,
  Dict.get Z.eqb (students w) student_id = Some s ->
  Dict.get Z.eqb (courses w) course_id = Some c ->
  str_in (Course.name c) (Student.enrolled_courses s) = false ->
  SystemManager.enroll_course w student_id course_id
  = mkOutcome
      (mkWorld (Student_id_counter w) (Course_id_counter w)
         (Dict.set Z.eqb (students w) student_id
            (Student.set_enrolled_courses s
               (Student.enrolled_courses s ++ [Course.name c])))
         (Dict.set Z.eqb (courses w) course_id
            (fst (Course.enroll_student c (Student.name s)))))
      (snd (Course.enroll_student c (Student.name s))
       ++ ["Student enrolled in course successfully."])
      (Returned tt).
Proof.
  intros w student_id course_id s c Hs Hc Hin.
  unfold SystemManager.enroll_course, Student.enroll_in_course.
  rewrite Hs, Hc, Hin. cbn.
  destruct (Course.enroll_student c (Student.name s)). reflexivity.
Qed.

Lemma enroll_student_message : forall c name,
  ~ In "Student enrolled in course successfully."
       (snd (Course.enroll_student c name)) .
Proof.
  intros c name. unfold Course.enroll_student.
  destruct (negb (str_in name (Course.enrolled_students c)));
    simpl; intros [H | []]; discriminate H.
Qed.

(** The success line is printed exactly when both ids are registered and
    the course's name is not yet in the student's list. *)
Lemma enroll_succeeds_iff : forall w student_id course_id,
  enroll_succeeds w student_id course_id <->
  exists s c,
    Dict.get Z.eqb (students w) student_id = Some s /\
    Dict.get Z.eqb (courses w) course_id = Some c /\
    str_in (Course.name c) (Student.enrolled_courses s) = false.
Proof.
  intros w student_id course_id. unfold enroll_succeeds. split.
  - intro H.
    destruct (Dict.get Z.eqb (students w) student_id) as [s|] eqn:Hs.
    2:{ rewrite enroll_unknown in H by now left.
        destruct H as [H | []]. discriminate H. }
    destruct (Dict.get Z.eqb (courses w) course_id) as [c|] eqn:Hc.
    2:{ rewrite enroll_unknown in H by now right.
        destruct H as [H | []]. discriminate H. }
    destruct (str_in (Course.name c) (Student.enrolled_courses s)) eqn:Hin.
    + rewrite (enroll_duplicate _ _ _ s c Hs Hc Hin) in H.
      destruct H as [H | []]. discriminate H.
    + now exists s, c.
  - intros [s [c [Hs [Hc Hin]]]].
    rewrite (enroll_fresh _ _ _ s c Hs Hc Hin). simpl.
    apply in_or_app. right. now left.
Qed.

(** ** What every call preserves *)

Lemma set_bound : forall (V : Type) (d : list (Z * V)) k0 v n,
  (forall k v', Dict.get Z.eqb d k = Some v' -> k < n) ->
  k0 < n ->
  forall k v', Dict.get Z.eqb (Dict.set Z.eqb d k0 v) k = Some v' -> k < n.
Proof.
  intros V d k0 v n Hd Hk0 k v' H. destruct (Z.eq_dec k k0) as [-> | Hne].
  - assumption.
  - rewrite (get_set_other Z.eqb Z.eqb_eq) in H by assumption. eauto.
Qed.

Lemma del_bound : forall (V : Type) (d : list (Z * V)) k0 n,
  (forall k v', Dict.get Z.eqb d k = Some v' -> k < n) ->
  forall k v', Dict.get Z.eqb (Dict.del Z.eqb d k0) k = Some v' -> k < n.
Proof.
  intros V d k0 n Hd k v' H. destruct (Z.eq_dec k k0) as [-> | Hne].
  - rewrite (get_del_same Z.eqb) in H. discriminate.
  - rewrite (get_del_other Z.eqb Z.eqb_eq) in H by assumption. eauto.
Qed.

Lemma bound_weaken : forall (V : Type) (d : list (Z * V)) n,
  (forall k v', Dict.get Z.eqb d k = Some v' -> k < n) ->
  forall k v', Dict.get Z.eqb d k = Some v' -> k < n + 1.
Proof. intros V d n Hd k v' H. apply Hd in H. lia. Qed.

Lemma initial_fresh : counters_fresh initial.
Proof. split; intros k v H; discriminate H. Qed.

Lemma counters_fresh_step : forall w c,
  counters_fresh w -> counters_fresh (after (step w c)).
Proof.
  intros w c [Hs Hc].
  destruct c; cbn [step cast after];
    unfold SystemManager.add_student, Student.init,
           SystemManager.remove_student,
           SystemManager.add_course, Course.init,
           SystemManager.remove_course,
           SystemManager.enroll_course, Student.enroll_in_course,
           Course.enroll_student,
           SystemManager.record_grade, Student.add_grade,
           SystemManager.search_courses,
           SystemManager.get_all_students, SystemManager.get_all_courses;
    manager_cases; cbn [after]; try (split; assumption);
    split; cbn [students courses Student_id_counter Course_id_counter
                Student.student_id Course.course_id];
    eauto using set_bound, del_bound, bound_weaken.
  - apply set_bound; [now apply bound_weaken | lia].
  - apply set_bound; [now apply bound_weaken | lia].
Qed.

Lemma counters_fresh_exec : forall cs w,
  counters_fresh w -> counters_fresh (exec w cs).
Proof.
  induction cs as [|c r IH]; intros w Hw; [exact Hw|].
  apply IH. now apply counters_fresh_step.
Qed.

Lemma reachable_fresh : forall w, reachable w -> counters_fresh w.
Proof.
  intros w [cs ->]. apply counters_fresh_exec, initial_fresh.
Qed.

Lemma student_grows_refl : forall s, student_grows s s.
Proof. intro s. split; [reflexivity | apply incl_refl]. Qed.

Lemma course_grows_refl : forall c, course_grows c c.
Proof. intro c. split; [reflexivity | apply incl_refl]. Qed.

Lemma enroll_student_grows : forall c name,
  course_grows c (fst (Course.enroll_student c name)).
Proof.
  intros c name. unfold Course.enroll_student.
  destruct (negb (str_in name (Course.enrolled_students c))); simpl.
  - split; [reflexivity | apply incl_appl, incl_refl].
  - apply course_grows_refl.
Qed.

Create HintDb registry.
#[local] Hint Resolve student_grows_refl course_grows_refl : registry.

(** A student who has a course is never removed, never renamed and
    never loses a course, whatever the next call is. *)
Lemma student_persists : forall w c student_id s,
  counters_fresh w ->
  Dict.get Z.eqb (students w) student_id = Some s ->
  Student.enrolled_courses s <> [] ->
  exists s',
    Dict.get Z.eqb (students (after (step w c))) student_id = Some s' /\
    student_grows s s'.
Proof.
  intros w c student_id s [Hfresh _] Hs Hne.
  assert (Hlt : student_id < Student_id_counter w) by eauto.
  destruct c as [name | i | name | i | i j | q | i j g | | ];
    cbn [step cast after].
  - (* add_student *)
    unfold SystemManager.add_student, Student.init.
    destruct (String.eqb name EmptyString); cbn.
    + eauto with registry.
    + rewrite (get_set_other Z.eqb Z.eqb_eq) by lia. eauto with registry.
  - (* remove_student *)
    unfold SystemManager.remove_student.
    destruct (Z.eq_dec i student_id) as [-> | Hi].
    + rewrite Hs. destruct (Student.enrolled_courses s); [congruence|].
      cbn. eauto with registry.
    + destruct (Dict.get Z.eqb (students w) i) as [s0|];
        [destruct (Student.enrolled_courses s0)|]; cbn;
        try rewrite (get_del_other Z.eqb Z.eqb_eq) by congruence;
        eauto with registry.
  - (* add_course *)
    cbn. eauto with registry.
  - (* remove_course *)
    unfold SystemManager.remove_course.
    destruct (Dict.get Z.eqb (courses w) i) as [c0|];
      [destruct (Course.enrolled_students c0)|]; cbn; eauto with registry.
  - (* enroll_course *)
    destruct (Dict.get Z.eqb (students w) i) as [s0|] eqn:Hi.
    2:{ rewrite enroll_unknown by now left. cbn. eauto with registry. }
    destruct (Dict.get Z.eqb (courses w) j) as [c0|] eqn:Hj.
    2:{ rewrite enroll_unknown by now right. cbn. eauto with registry. }
    destruct (str_in (Course.name c0) (Student.enrolled_courses s0)) eqn:Hin.
    + rewrite (enroll_duplicate _ _ _ s0 c0) by assumption.
      cbn. eauto with registry.
    + rewrite (enroll_fresh _ _ _ s0 c0) by assumption. cbn.
      destruct (Z.eq_dec student_id i) as [-> | Hi'].
      * rewrite (get_set_same Z.eqb Z.eqb_eq).
        assert (s0 = s) by congruence. subst s0.
        eexists. split; [reflexivity|].
        split; [reflexivity | apply incl_appl, incl_refl].
      * rewrite (get_set_other Z.eqb Z.eqb_eq) by assumption.
        eauto with registry.
  - (* search_courses *)
    cbn. eauto with registry.
  - (* record_grade *)
    unfold SystemManager.record_grade, Student.add_grade.
    destruct (Dict.get Z.eqb (students w) i) as [s0|] eqn:Hi;
      [|cbn; eauto with registry].
    destruct (Dict.get Z.eqb (courses w) j) as [c0|];
      [|cbn; eauto with registry].
    destruct (negb ((0 <=? g) && (g <=? 100))); cbn; [eauto with registry|].
    destruct (Z.eq_dec student_id i) as [-> | Hi'].
    + rewrite (get_set_same Z.eqb Z.eqb_eq).
      assert (s0 = s) by congruence. subst s0.
      eexists. split; [reflexivity|].
      split; [reflexivity | apply incl_refl].
    + rewrite (get_set_other Z.eqb Z.eqb_eq) by assumption.
      eauto with registry.
  - cbn. eauto with registry.
  - cbn. eauto with registry.
Qed.

(** The same for a course that has a student. *)
Lemma course_persists : forall w c course_id co,
  counters_fresh w ->
  Dict.get Z.eqb (courses w) course_id = Some co ->
  Course.enrolled_students co <> [] ->
  exists co',
    Dict.get Z.eqb (courses (after (step w c))) course_id = Some co' /\
    course_grows co co'.
Proof.
  intros w c course_id co [_ Hfresh] Hc Hne.
  assert (Hlt : course_id < Course_id_counter w) by eauto.
  destruct c as [name | i | name | i | i j | q | i j g | | ];
    cbn [step cast after].
  - (* add_student *)
    unfold SystemManager.add_student, Student.init.
    destruct (String.eqb name EmptyString); cbn; eauto with registry.
  - (* remove_student *)
    unfold SystemManager.remove_student.
    destruct (Dict.get Z.eqb (students w) i) as [s0|];
      [destruct (Student.enrolled_courses s0)|]; cbn; eauto with registry.
  - (* add_course *)
    cbn. rewrite (get_set_other Z.eqb Z.eqb_eq) by lia. eauto with registry.
  - (* remove_course *)
    unfold SystemManager.remove_course.
    destruct (Z.eq_dec i course_id) as [-> | Hi].
    + rewrite Hc. destruct (Course.enrolled_students co); [congruence|].
      cbn. eauto with registry.
    + destruct (Dict.get Z.eqb (courses w) i) as [c0|];
        [destruct (Course.enrolled_students c0)|]; cbn;
        try rewrite (get_del_other Z.eqb Z.eqb_eq) by congruence;
        eauto with registry.
  - (* enroll_course *)
    destruct (Dict.get Z.eqb (students w) i) as [s0|] eqn:Hi.
    2:{ rewrite enroll_unknown by now left. cbn. eauto with registry. }
    destruct (Dict.get Z.eqb (courses w) j) as [c0|] eqn:Hj.
    2:{ rewrite enroll_unknown by now right. cbn. eauto with registry. }
    destruct (str_in (Course.name c0) (Student.enrolled_courses s0)) eqn:Hin.
    + rewrite (enroll_duplicate _ _ _ s0 c0) by assumption.
      cbn. eauto with registry.
    + rewrite (enroll_fresh _ _ _ s0 c0) by assumption. cbn.
      destruct (Z.eq_dec course_id j) as [-> | Hj'].
      * rewrite (get_set_same Z.eqb Z.eqb_eq).
        assert (c0 = co) by congruence. subst c0.
        eexists. split; [reflexivity | apply enroll_student_grows].
      * rewrite (get_set_other Z.eqb Z.eqb_eq) by assumption.
        eauto with registry.
  - (* search_courses *)
    cbn. eauto with registry.
  - (* record_grade *)
    unfold SystemManager.record_grade, Student.add_grade.
    destruct (Dict.get Z.eqb (students w) i) as [s0|];
      [|cbn; eauto with registry].
    destruct (Dict.get Z.eqb (courses w) j) as [c0|];
      [|cbn; eauto with registry].
    destruct (negb ((0 <=? g) && (g <=? 100))); cbn; eauto with registry.
  - cbn. eauto with registry.
  - cbn. eauto with registry.
Qed.

Lemma in_nonempty : forall (x : string) l, In x l -> l <> [].
Proof. intros x l H ->. exact H. Qed.

Lemma linked_step : forall w c student_id course_id,
  counters_fresh w ->
  linked w student_id course_id ->
  linked (after (step w c)) student_id course_id.
Proof.
  intros w c student_id course_id Hw [s [co [Hs [Hc [Hin1 Hin2]]]]].
  destruct (student_persists w c student_id s Hw Hs (in_nonempty _ _ Hin1))
    as [s' [Hs' [Hn Hi]]].
  destruct (course_persists w c course_id co Hw Hc (in_nonempty _ _ Hin2))
    as [co' [Hc' [Hn' Hi']]].
  exists s', co'. repeat split; try assumption.
  - rewrite Hn'. now apply Hi.
  - rewrite Hn. now apply Hi'.
Qed.

Lemma linked_exec : forall cs w student_id course_id,
  counters_fresh w ->
  linked w student_id course_id ->
  linked (exec w cs) student_id course_id.
Proof.
  induction cs as [|c r IH]; intros w student_id course_id Hw Hl;
    [exact Hl|].
  apply IH; [now apply counters_fresh_step | now apply linked_step].
Qed.

(** Right after a successful enrollment the two objects are linked. *)
Lemma enroll_links : forall w student_id course_id,
  enroll_succeeds w student_id course_id ->
  linked (after (SystemManager.enroll_course w student_id course_id))
    student_id course_id.
Proof.
  intros w student_id course_id H.
  apply enroll_succeeds_iff in H. destruct H as [s [c [Hs [Hc Hin]]]].
  rewrite (enroll_fresh _ _ _ s c Hs Hc Hin). cbn.
  exists (Student.set_enrolled_courses s
            (Student.enrolled_courses s ++ [Course.name c])),
         (fst (Course.enroll_student c (Student.name s))).
  split; [apply (get_set_same Z.eqb Z.eqb_eq)|].
  split; [apply (get_set_same Z.eqb Z.eqb_eq)|].
  unfold Course.enroll_student.
  destruct (str_in (Student.name s) (Course.enrolled_students c)) eqn:E;
    cbn; split.
  - apply in_or_app. right. now left.
  - now apply str_in_iff.
  - apply in_or_app. right. now left.
  - apply in_or_app. right. now left.
Qed.

Lemma linked_symmetric : forall w student_id course_id,
  linked w student_id course_id -> symmetric w student_id course_id.
Proof.
  intros w student_id course_id [s [c [Hs [Hc [H1 H2]]]]].
  exists s, c. repeat split; auto.
Qed.

Lemma linked_refuses : forall w student_id course_id,
  linked w student_id course_id ->
  SystemManager.enroll_course w student_id course_id
  = mkOutcome w ["Student is already enrolled in the course."] (Returned tt).
Proof.
  intros w student_id course_id [s [c [Hs [Hc [H1 _]]]]].
  apply (enroll_duplicate _ _ _ s c Hs Hc). now apply str_in_iff.
Qed.

Lemma amina_can_enroll : enroll_succeeds amina_biology 1 1.
Proof.
  apply enroll_succeeds_iff.
  exists (Student.mk 1 "Amina" [] []), (Course.mk 1 "Biology" []).
  repeat split.
Qed.

(** ** C1: symmetry of an enrollment *)

(** C1. For every state and every student and course id, once
    [enroll_course] has succeeded both are registered and the student's
    list contains the course's reference if and only if the course's list
    contains the student's reference (both contain it). In a state whose
    keys lie below the class counters, as the states of a running process
    do, this stays so after every further sequence of calls. *)
Theorem enroll_symmetry : forall w student_id course_id,
  enroll_succeeds w student_id course_id ->
  let w1 := after (SystemManager.enroll_course w student_id course_id) in
  (symmetric w1 student_id course_id /\ linked w1 student_id course_id) /\
  (counters_fresh w ->
   forall cs,
     symmetric (exec w1 cs) student_id course_id /\
     linked (exec w1 cs) student_id course_id).
Proof.
  intros w student_id course_id Hok w1.
  assert (Hl : linked w1 student_id course_id) by now apply enroll_links.
  split.
  - split; [now apply linked_symmetric | exact Hl].
  - intros Hw cs.
    assert (Hl' : linked (exec w1 cs) student_id course_id).
    { apply linked_exec; [|exact Hl].
      apply (counters_fresh_step w (EnrollCourse student_id course_id) Hw). }
    split; [now apply linked_symmetric | exact Hl'].
Qed.

(** Amina and Biology stay linked through later calls, refused removals
    included. *)
Lemma enroll_symmetry_witness :
  symmetric
    (exec (after (SystemManager.enroll_course amina_biology 1 1))
       [AddStudent "Bilal"; RemoveStudent 1; RemoveCourse 1;
        EnrollCourse 2 1]) 1 1.
Proof.
  apply (proj2 (enroll_symmetry amina_biology 1 1 amina_can_enroll)).
  apply reachable_fresh.
  exists [AddStudent "Amina"; AddCourse "Biology"]. reflexivity.
Defined.

(** ** C4: enrolling twice *)

(** C4, as the claim states it, fails: the second [enroll_course] of the
    same student in the same course does not fail with an error, it
    returns normally. *)
Lemma second_enroll_returns :
  enroll_succeeds amina_biology 1 1 /\
  ~ raises (ret (SystemManager.enroll_course
                   (after (SystemManager.enroll_course amina_biology 1 1))
                   1 1)).
Proof.
  split; [exact amina_can_enroll|]. intros [e H]. discriminate H.
Qed.

(** C4, amended. Once [enroll_course] has succeeded for a student and a
    course, a second call for the same pair is refused: it prints
    "Student is already enrolled in the course.", raises nothing and
    leaves the whole state, so also the student's enrolled-course list
    and its length, as it was. In a state whose keys lie below the class
    counters the same holds after any calls in between. *)
Theorem second_enroll_refused : forall w student_id course_id,
  enroll_succeeds w student_id course_id ->
  let w1 := after (SystemManager.enroll_course w student_id course_id) in
  (SystemManager.enroll_course w1 student_id course_id
   = mkOutcome w1 ["Student is already enrolled in the course."]
       (Returned tt) /\
   exists l,
     student_list w1 student_id = Some l /\
     student_list
       (after (SystemManager.enroll_course w1 student_id course_id))
       student_id = Some l) /\
  (counters_fresh w ->
   forall cs,
     let w2 := exec w1 cs in
     SystemManager.enroll_course w2 student_id course_id
     = mkOutcome w2 ["Student is already enrolled in the course."]
         (Returned tt)).
Proof.
  intros w student_id course_id Hok w1.
  assert (Hl : linked w1 student_id course_id) by now apply enroll_links.
  split.
  - rewrite (linked_refuses _ _ _ Hl). split; [reflexivity|].
    destruct Hl as [s [c [Hs _]]].
    exists (Student.enrolled_courses s). cbn. unfold student_list.
    now rewrite Hs.
  - intros Hw cs w2. apply linked_refuses, linked_exec; [|exact Hl].
    apply (counters_fresh_step w (EnrollCourse student_id course_id) Hw).
Qed.

(** Enrolling Amina in Biology a second time. *)
Lemma second_enroll_refused_witness :
  SystemManager.enroll_course amina_enrolled 1 1
  = mkOutcome amina_enrolled ["Student is already enrolled in the course."]
      (Returned tt).
Proof.
  apply (proj1 (proj1 (second_enroll_refused amina_biology 1 1
                         amina_can_enroll))).
Defined.

(** ** The symmetry invariant over the whole registry *)

(** References are names, so the invariant over all pairs needs names
    that identify: with two students called the same, enrolling one makes
    the course's list name the other one too. *)
Example namesakes_not_symmetric :
  reachable namesakes /\ ~ globally_symmetric namesakes.
Proof.
  split.
  - eexists. reflexivity.
  - intro H.
    specialize (H 2 (Student.mk 2 "Ali" [] []) 1 (Course.mk 1 "Math" ["Ali"])
                  eq_refl eq_refl).
    cbn in H. apply H. now left.
Qed.

Section Views.

Ltac if_known :=
  repeat match goal with
  | H : context C [if true then ?x else ?y] |- _ =>
      let t := context C [x] in change t in H
  | H : context C [if false then ?x else ?y] |- _ =>
      let t := context C [y] in change t in H
  | |- context C [if true then ?x else ?y] =>
      let t := context C [x] in change t
  | |- context C [if false then ?x else ?y] =>
      let t := context C [y] in change t
  end.

Ltac upd_case a b :=
  let E := fresh "E" in
  destruct (Z.eqb a b) eqn:E; rewrite ?E in *; if_known;
  [apply Z.eqb_eq in E; try subst a | apply Z.eqb_neq in E].

Ltac upd_cases :=
  unfold upd in *;
  repeat match goal with
  | H : context [Z.eqb ?a ?b] |- _ => upd_case a b
  | |- context [Z.eqb ?a ?b] => upd_case a b
  end.

Lemma tidy_views_swap : forall S C, tidy_views S C -> tidy_views C S.
Proof.
  intros S C [Hsym Hsi Hci Hsc Hcc]. constructor; eauto.
  intros i n l j m r Hi Hj. symmetry. eauto.
Qed.

Lemma tidy_views_ext : forall S C S' C',
  (forall k, S' k = S k) -> (forall k, C' k = C k) ->
  tidy_views S C -> tidy_views S' C'.
Proof.
  intros S C S' C' HS HC [Hsym Hsi Hci Hsc Hcc]. constructor.
  - intros i n l j m r. rewrite HS, HC. eauto.
  - intros i j n l l'. rewrite !HS. eauto.
  - intros i j m r r'. rewrite !HC. eauto.
  - intros j m r n. rewrite HC. intros Hj Hin.
    destruct (Hsc j m r n Hj Hin) as [i [l Hi]].
    exists i, l. now rewrite HS.
  - intros i n l m. rewrite HS. intros Hi Hin.
    destruct (Hcc i n l m Hi Hin) as [j [r Hj]].
    exists j, r. now rewrite HC.
Qed.

Ltac some_eq :=
  repeat match goal with
  | H : Some (_, _) = Some (_, _) |- _ => injection H as ? ?; subst
  | H : None = Some _ |- _ => discriminate H
  end.

(** A new object with a new name and an empty list. *)
Lemma tidy_views_add : forall S C k n,
  tidy_views S C ->
  S k = None ->
  (forall i l, S i <> Some (n, l)) ->
  tidy_views (upd S k (Some (n, []))) C.
Proof.
  intros S C k n [Hsym Hsi Hci Hsc Hcc] Hk Hnew. constructor.
  - intros i n0 l j m r Hi Hj. upd_cases; some_eq; [|eauto].
    split; [intros []|].
    intro Hin. destruct (Hsc j m r n0 Hj Hin) as [i' [l' Hi']].
    now apply Hnew in Hi'.
  - intros i j n0 l l' Hi Hj.
    upd_cases; some_eq; try reflexivity; try (exfalso; eapply Hnew; eassumption).
    eauto.
  - exact Hci.
  - intros j m r n0 Hj Hin.
    destruct (Hsc j m r n0 Hj Hin) as [i [l Hi]].
    exists i, l. upd_cases; [congruence | assumption].
  - intros i n0 l m Hi Hin. upd_cases; some_eq; [destruct Hin | eauto].
Qed.

(** An object with an empty list goes. *)
Lemma tidy_views_del : forall S C k n,
  tidy_views S C ->
  S k = Some (n, []) ->
  tidy_views (upd S k None) C.
Proof.
  intros S C k n [Hsym Hsi Hci Hsc Hcc] Hk. constructor.
  - intros i n0 l j m r Hi Hj. upd_cases; some_eq. eauto.
  - intros i j n0 l l' Hi Hj. upd_cases; some_eq. eauto.
  - exact Hci.
  - intros j m r n0 Hj Hin.
    destruct (Hsc j m r n0 Hj Hin) as [i [l Hi]].
    exists i, l. upd_cases; [|assumption].
    exfalso. rewrite Hk in Hi. some_eq.
    apply (Hsym k n0 [] j m r Hk Hj) in Hin. destruct Hin.
  - intros i n0 l m Hi Hin. upd_cases; some_eq. eauto.
Qed.

(** Each of the two objects gets the other's name at the end of its list. *)
Lemma tidy_views_enroll : forall S C i n l j m r,
  tidy_views S C ->
  S i = Some (n, l) ->
  C j = Some (m, r) ->
  tidy_views (upd S i (Some (n, l ++ [m]))) (upd C j (Some (m, r ++ [n]))).
Proof.
  intros S C i n l j m r [Hsym Hsi Hci Hsc Hcc] Hi Hj. constructor.
  - intros i0 n0 l0 j0 m0 r0 Hi0 Hj0.
    destruct (Z.eq_dec i0 i) as [-> | Hni];
      destruct (Z.eq_dec j0 j) as [-> | Hnj];
      upd_cases; try contradiction; some_eq.
    + split; intros _; apply in_or_app; right; now left.
    + rewrite in_app_iff, (Hsym i n0 l j0 m0 r0 Hi Hj0).
      split; [intros [H | [H | []]]; [exact H|] | now left].
      subst m0. exfalso. apply Hnj. eauto.
    + rewrite in_app_iff, <- (Hsym i0 n0 l0 j m0 r Hi0 Hj).
      split; [now left | intros [H | [H | []]]; [exact H|]].
      subst n0. exfalso. apply Hni. eauto.
    + eauto.
  - intros i0 j0 n0 l0 l0' Hi0 Hj0.
    upd_cases; some_eq; try reflexivity; eauto.
  - intros i0 j0 m0 r0 r0' Hi0 Hj0.
    upd_cases; some_eq; try reflexivity; eauto.
  - intros j0 m0 r0 n0 Hj0 Hin.
    assert (Hex : exists i' l', S i' = Some (n0, l')).
    { upd_cases; some_eq; [|eauto].
      apply in_app_iff in Hin. destruct Hin as [Hin | [<- | []]]; eauto. }
    destruct Hex as [i' [l' Hi']].
    destruct (Z.eq_dec i' i) as [-> | Hne].
    + assert (n0 = n) by congruence. subst n0.
      exists i, (l ++ [m]). unfold upd. now rewrite Z.eqb_refl.
    + exists i', l'. unfold upd.
      destruct (Z.eqb_spec i' i); [contradiction | assumption].
  - intros i0 n0 l0 m0 Hi0 Hin.
    assert (Hex : exists j' r', C j' = Some (m0, r')).
    { upd_cases; some_eq; [|eauto].
      apply in_app_iff in Hin. destruct Hin as [Hin | [<- | []]]; eauto. }
    destruct Hex as [j' [r' Hj']].
    destruct (Z.eq_dec j' j) as [-> | Hne].
    + assert (m0 = m) by congruence. subst m0.
      exists j, (r ++ [n]). unfold upd. now rewrite Z.eqb_refl.
    + exists j', r'. unfold upd.
      destruct (Z.eqb_spec j' j); [contradiction | assumption].
Qed.

End Views.

Lemma view_set : forall (V : Type) (f : V -> string * list string)
    (d : list (Z * V)) k v k',
  option_map f (Dict.get Z.eqb (Dict.set Z.eqb d k v) k')
  = upd (fun i => option_map f (Dict.get Z.eqb d i)) k (Some (f v)) k'.
Proof.
  intros V f d k v k'. unfold upd. destruct (Z.eqb_spec k' k) as [-> | Hne].
  - now rewrite (get_set_same Z.eqb Z.eqb_eq).
  - now rewrite (get_set_other Z.eqb Z.eqb_eq).
Qed.

Lemma view_del : forall (V : Type) (f : V -> string * list string)
    (d : list (Z * V)) k k',
  option_map f (Dict.get Z.eqb (Dict.del Z.eqb d k) k')
  = upd (fun i => option_map f (Dict.get Z.eqb d i)) k None k'.
Proof.
  intros V f d k k'. unfold upd. destruct (Z.eqb_spec k' k) as [-> | Hne].
  - now rewrite (get_del_same Z.eqb).
  - now rewrite (get_del_other Z.eqb Z.eqb_eq).
Qed.

(** Writing back what is there already changes no view. *)
Lemma upd_same : forall (S : view) k v k', S k = v -> upd S k v k' = S k'.
Proof.
  intros S k v k' H. unfold upd.
  destruct (Z.eqb_spec k' k) as [-> | Hne]; congruence.
Qed.

Lemma get_in_values : forall (V : Type) (d : list (Z * V)) k v,
  Dict.get Z.eqb d k = Some v -> In v (Dict.values d).
Proof.
  induction d as [|[k0 v0] r IH]; intros k v H; simpl in *; [discriminate|].
  destruct (Z.eqb k k0); [left; congruence | right; eauto].
Qed.

Lemma student_named_false : forall w name,
  student_named w name = false -> forall i l, sview w i <> Some (name, l).
Proof.
  intros w name H i l Hi. unfold sview in Hi.
  destruct (Dict.get Z.eqb (students w) i) as [s|] eqn:E; [|discriminate].
  cbn in Hi. injection Hi as Hn _.
  assert (Ht : student_named w name = true); [|congruence].
  apply existsb_exists. exists s.
  split; [eapply get_in_values; eassumption | now apply String.eqb_eq].
Qed.

Lemma course_named_false : forall w name,
  course_named w name = false -> forall i l, cview w i <> Some (name, l).
Proof.
  intros w name H i l Hi. unfold cview in Hi.
  destruct (Dict.get Z.eqb (courses w) i) as [c|] eqn:E; [|discriminate].
  cbn in Hi. injection Hi as Hn _.
  assert (Ht : course_named w name = true); [|congruence].
  apply existsb_exists. exists c.
  split; [eapply get_in_values; eassumption | now apply String.eqb_eq].
Qed.

Lemma tidy_initial : tidy initial.
Proof.
  split; [apply initial_fresh|]. constructor; cbv; intros; discriminate.
Qed.

Lemma tidy_symmetric : forall w, tidy w -> globally_symmetric w.
Proof.
  intros w [_ Hv] student_id s course_id c Hs Hc.
  apply (tv_sym _ _ Hv student_id _ _ course_id).
  - unfold sview. now rewrite Hs.
  - unfold cview. now rewrite Hc.
Qed.

Lemma fresh_student_key : forall w,
  counters_fresh w -> sview w (Student_id_counter w) = None.
Proof.
  intros w [H _]. unfold sview.
  destruct (Dict.get Z.eqb (students w) (Student_id_counter w)) eqn:E;
    [|reflexivity].
  apply H in E. lia.
Qed.

Lemma fresh_course_key : forall w,
  counters_fresh w -> cview w (Course_id_counter w) = None.
Proof.
  intros w [_ H]. unfold cview.
  destruct (Dict.get Z.eqb (courses w) (Course_id_counter w)) eqn:E;
    [|reflexivity].
  apply H in E. lia.
Qed.

(** Every call keeps the registry tidy, as long as a new student or
    course is not given the name of a registered one. *)
Lemma tidy_step : forall w c,
  tidy w -> new_name w c = true -> tidy (after (step w c)).
Proof.
  intros w c [Hfresh Hv] Hnew.
  split; [now apply counters_fresh_step|].
  destruct c as [name | i | name | i | i j | q | i j g | | ];
    cbn [step cast after]; try exact Hv.
  - (* add_student *)
    unfold SystemManager.add_student, Student.init.
    destruct (String.eqb name EmptyString); cbn; [exact Hv|].
    apply tidy_views_ext
      with (S := upd (sview w) (Student_id_counter w) (Some (name, [])))
           (C := cview w).
    + intro k. unfold sview. cbn. apply view_set.
    + reflexivity.
    + apply tidy_views_add;
        [exact Hv | now apply fresh_student_key |].
      apply student_named_false. cbn in Hnew.
      now destruct (student_named w name).
  - (* remove_student *)
    unfold SystemManager.remove_student.
    destruct (Dict.get Z.eqb (students w) i) as [s|] eqn:Hs;
      [|exact Hv].
    destruct (Student.enrolled_courses s) eqn:Hl; [|exact Hv]. cbn.
    apply tidy_views_ext with (S := upd (sview w) i None) (C := cview w).
    + intro k. unfold sview. cbn. apply view_del.
    + reflexivity.
    + apply tidy_views_del with (n := Student.name s); [exact Hv|].
      unfold sview. rewrite Hs. cbn. now rewrite Hl.
  - (* add_course *)
    cbn. apply tidy_views_swap.
    apply tidy_views_ext
      with (S := upd (cview w) (Course_id_counter w) (Some (name, [])))
           (C := sview w).
    + intro k. unfold cview. cbn. apply view_set.
    + reflexivity.
    + apply tidy_views_add;
        [now apply tidy_views_swap | now apply fresh_course_key |].
      apply course_named_false. cbn in Hnew.
      now destruct (course_named w name).
  - (* remove_course *)
    unfold SystemManager.remove_course.
    destruct (Dict.get Z.eqb (courses w) i) as [c|] eqn:Hc;
      [|exact Hv].
    destruct (Course.enrolled_students c) eqn:Hl; [|exact Hv]. cbn.
    apply tidy_views_swap.
    apply tidy_views_ext with (S := upd (cview w) i None) (C := sview w).
    + intro k. unfold cview. cbn. apply view_del.
    + reflexivity.
    + apply tidy_views_del with (n := Course.name c);
        [now apply tidy_views_swap|].
      unfold cview. rewrite Hc. cbn. now rewrite Hl.
  - (* enroll_course *)
    destruct (Dict.get Z.eqb (students w) i) as [s|] eqn:Hs.
    2:{ rewrite enroll_unknown by now left. exact Hv. }
    destruct (Dict.get Z.eqb (courses w) j) as [c|] eqn:Hc.
    2:{ rewrite enroll_unknown by now right. exact Hv. }
    destruct (str_in (Course.name c) (Student.enrolled_courses s)) eqn:Hin.
    { rewrite (enroll_duplicate _ _ _ s c) by assumption. exact Hv. }
    rewrite (enroll_fresh _ _ _ s c) by assumption. cbn.
    assert (Hsi : sview w i
                  = Some (Student.name s, Student.enrolled_courses s))
      by (unfold sview; now rewrite Hs).
    assert (Hcj : cview w j
                  = Some (Course.name c, Course.enrolled_students c))
      by (unfold cview; now rewrite Hc).
    assert (Hout :
      str_in (Student.name s) (Course.enrolled_students c) = false).
    { destruct (str_in (Student.name s) (Course.enrolled_students c))
        eqn:E; [|reflexivity].
      apply str_in_iff in E.
      apply (tv_sym _ _ Hv i _ _ j _ _ Hsi Hcj) in E.
      apply str_in_iff in E. congruence. }
    unfold Course.enroll_student. rewrite Hout. cbn.
    eapply tidy_views_ext;
      [| | apply (tidy_views_enroll _ _ i _ _ j _ _ Hv Hsi Hcj)].
    + intro k. unfold sview. cbn. apply view_set.
    + intro k. unfold cview. cbn. apply view_set.
  - (* record_grade *)
    unfold SystemManager.record_grade, Student.add_grade.
    destruct (Dict.get Z.eqb (students w) i) as [s|] eqn:Hs;
      [|exact Hv].
    destruct (Dict.get Z.eqb (courses w) j) as [c|]; [|exact Hv].
    destruct (negb ((0 <=? g) && (g <=? 100))); cbn; [exact Hv|].
    apply tidy_views_ext with (S := sview w) (C := cview w);
      [| reflexivity | exact Hv].
    intro k. unfold sview at 1. cbn. rewrite view_set. cbn.
    apply upd_same. now rewrite Hs.
Qed.

Lemma tidy_exec : forall cs w,
  tidy w -> all_new w cs = true -> tidy (exec w cs).
Proof.
  induction cs as [|c r IH]; intros w Hw Hnew; [exact Hw|].
  cbn in Hnew. apply andb_true_iff in Hnew. destruct Hnew as [Hc Hr].
  apply IH; [now apply tidy_step | exact Hr].
Qed.

(** X1. With names that identify, the symmetry invariant holds of every
    registered student and course, in every state a client reaches from
    a fresh process as long as no [add_student] or [add_course] reuses
    the name of a registered student or course. *)
Theorem distinct_names_symmetric : forall cs,
  all_new initial cs = true -> globally_symmetric (exec initial cs).
Proof.
  intros cs H. apply tidy_symmetric, tidy_exec; [apply tidy_initial | exact H].
Qed.

Lemma distinct_names_symmetric_witness :
  globally_symmetric
    (exec initial [AddStudent "Amina"; AddStudent "Bilal";
                   AddCourse "Biology"; AddCourse "Math";
                   EnrollCourse 1 1; EnrollCourse 2 1; EnrollCourse 2 2;
                   RecordGrade 1 1 90; RemoveCourse 2; RemoveStudent 1]).
Proof. apply distinct_names_symmetric. reflexivity. Defined.

(** ** C2: the two updates of [enroll_course] *)

Lemma namesake_can_enroll : enroll_succeeds namesakes 2 1.
Proof.
  apply enroll_succeeds_iff.
  exists (Student.mk 2 "Ali" [] []), (Course.mk 1 "Math" ["Ali"]).
  repeat split.
Qed.

(** C2, as the claim states it, fails twice. With an unregistered
    student id [enroll_course] does not fail with an error, it returns
    normally. And with two students of the same name, the first already
    in the course, enrolling the second succeeds and appends the course to
    the student's list, while the course's list stays as it was
    ([Course.enroll_student] finds the name there): one side only is
    updated. *)
Lemma enroll_one_sided :
  (Dict.get Z.eqb (students amina_enrolled) 5 = None /\
   ~ raises (ret (SystemManager.enroll_course amina_enrolled 5 1))) /\
  (enroll_succeeds namesakes 2 1 /\
   ~ both_or_neither namesakes
       (after (SystemManager.enroll_course namesakes 2 1)) 2 1).
Proof.
  split; split.
  - reflexivity.
  - intros [e H]. discriminate H.
  - exact namesake_can_enroll.
  - intros [[H _] | [s [c [Hs [Hc [_ H]]]]]].
    + discriminate H.
    + cbv in Hs, Hc. injection Hs as <-. injection Hc as <-.
      discriminate H.
Qed.

Lemma enroll_never_raises : forall w student_id course_id,
  ret (SystemManager.enroll_course w student_id course_id) = Returned tt.
Proof.
  intros w student_id course_id. unfold SystemManager.enroll_course.
  destruct (Dict.get Z.eqb (students w) student_id) as [s|];
    [|reflexivity].
  destruct (Dict.get Z.eqb (courses w) course_id) as [c|];
    [|reflexivity].
  destruct (negb (str_in (Course.name c) (Student.enrolled_courses s)));
    [|reflexivity].
  destruct (Student.enroll_in_course s (Course.name c)) as [s' out1].
  destruct (Course.enroll_student c (Student.name s')). reflexivity.
Qed.

(** The two lists after the success branch. *)
Lemma enroll_fresh_lists : forall w student_id course_id s c,
  Dict.get Z.eqb (students w) student_id = Some s ->
  Dict.get Z.eqb (courses w) course_id = Some c ->
  str_in (Course.name c) (Student.enrolled_courses s) = false ->
  let o := SystemManager.enroll_course w student_id course_id in
  student_list (after o) student_id
  = Some (Student.enrolled_courses s ++ [Course.name c]) /\
  course_list (after o) course_id
  = Some (if str_in (Student.name s) (Course.enrolled_students c)
          then Course.enrolled_students c
          else Course.enrolled_students c ++ [Student.name s]).
Proof.
  intros w student_id course_id s c Hs Hc Hin o. subst o.
  rewrite (enroll_fresh _ _ _ s c Hs Hc Hin).
  unfold student_list, course_list. cbn.
  rewrite !(get_set_same Z.eqb Z.eqb_eq). cbn.
  unfold Course.enroll_student.
  destruct (str_in (Student.name s) (Course.enrolled_students c));
    split; reflexivity.
Qed.

Lemma enroll_both_or_neither : forall w student_id course_id s c,
  Dict.get Z.eqb (students w) student_id = Some s ->
  Dict.get Z.eqb (courses w) course_id = Some c ->
  str_in (Course.name c) (Student.enrolled_courses s) = true \/
  str_in (Student.name s) (Course.enrolled_students c) = false ->
  both_or_neither w
    (after (SystemManager.enroll_course w student_id course_id))
    student_id course_id.
Proof.
  intros w student_id course_id s c Hs Hc Hor.
  destruct (str_in (Course.name c) (Student.enrolled_courses s)) eqn:Hin.
  - left. rewrite (enroll_duplicate _ _ _ s c Hs Hc Hin).
    split; reflexivity.
  - destruct Hor as [Hor | Hor]; [discriminate|].
    right. exists s, c.
    destruct (enroll_fresh_lists _ _ _ s c Hs Hc Hin) as [H1 H2].
    rewrite Hor in H2. auto.
Qed.

(** In a tidy registry the name test of [Course.enroll_student] agrees
    with the manager's own test, so the two updates go together. *)
Lemma tidy_both_or_neither : forall w student_id course_id,
  tidy w ->
  both_or_neither w
    (after (SystemManager.enroll_course w student_id course_id))
    student_id course_id.
Proof.
  intros w student_id course_id Hw.
  destruct (Dict.get Z.eqb (students w) student_id) as [s|] eqn:Hs.
  2:{ rewrite enroll_unknown by now left. left. split; reflexivity. }
  destruct (Dict.get Z.eqb (courses w) course_id) as [c|] eqn:Hc.
  2:{ rewrite enroll_unknown by now right. left. split; reflexivity. }
  apply (enroll_both_or_neither _ _ _ s c Hs Hc).
  destruct (str_in (Course.name c) (Student.enrolled_courses s)) eqn:Hin;
    [now left | right].
  destruct (str_in (Student.name s) (Course.enrolled_students c)) eqn:E;
    [|reflexivity].
  apply str_in_iff in E.
  apply (tidy_symmetric w Hw student_id s course_id c Hs Hc) in E.
  apply str_in_iff in E. congruence.
Qed.

(** C2, amended. [enroll_course] never raises. With an unregistered
    student id or course id it prints "Invalid student or course ID." and
    changes nothing. With both registered and the course's name already
    in the student's list it prints
    "Student is already enrolled in the course." and changes nothing.
    Otherwise it appends the course's name to the student's list, and
    appends the student's name to the course's list unless that name is
    already there, in which case the course's list is left as it was. So
    either both lists are appended to or neither changes, except when the
    student's name is already in the course's list and the course's name
    is not in the student's; in a tidy registry (names identify the
    registered objects, as when no registered name is reused) that
    exception does not occur. *)
Theorem enroll_updates : forall w student_id course_id,
  let o := SystemManager.enroll_course w student_id course_id in
  ret o = Returned tt /\
  (Dict.get Z.eqb (students w) student_id = None \/
   Dict.get Z.eqb (courses w) course_id = None ->
   o = mkOutcome w ["Invalid student or course ID."] (Returned tt)) /\
  (forall s c,
     Dict.get Z.eqb (students w) student_id = Some s ->
     Dict.get Z.eqb (courses w) course_id = Some c ->
     (str_in (Course.name c) (Student.enrolled_courses s) = true ->
      o = mkOutcome w ["Student is already enrolled in the course."]
            (Returned tt)) /\
     (str_in (Course.name c) (Student.enrolled_courses s) = false ->
      student_list (after o) student_id
      = Some (Student.enrolled_courses s ++ [Course.name c]) /\
      course_list (after o) course_id
      = Some (if str_in (Student.name s) (Course.enrolled_students c)
              then Course.enrolled_students c
              else Course.enrolled_students c ++ [Student.name s])) /\
     (str_in (Course.name c) (Student.enrolled_courses s) = true \/
      str_in (Student.name s) (Course.enrolled_students c) = false ->
      both_or_neither w (after o) student_id course_id)) /\
  (tidy w -> both_or_neither w (after o) student_id course_id).
Proof.
  intros w student_id course_id o. subst o.
  split; [apply enroll_never_raises|].
  split; [apply enroll_unknown|].
  split; [|apply tidy_both_or_neither].
  intros s c Hs Hc. split; [|split].
  - apply (enroll_duplicate _ _ _ s c Hs Hc).
  - apply (enroll_fresh_lists _ _ _ s c Hs Hc).
  - apply (enroll_both_or_neither _ _ _ s c Hs Hc).
Qed.

(** An unknown student id, a first enrollment and a repeated one. *)
Lemma enroll_updates_witness :
  SystemManager.enroll_course amina_enrolled 5 1
  = mkOutcome amina_enrolled ["Invalid student or course ID."] (Returned tt) /\
  both_or_neither amina_biology
    (after (SystemManager.enroll_course amina_biology 1 1)) 1 1 /\
  both_or_neither amina_enrolled
    (after (SystemManager.enroll_course amina_enrolled 1 1)) 1 1.
Proof.
  split; [|split].
  - apply (proj1 (proj2 (enroll_updates amina_enrolled 5 1))).
    left. reflexivity.
  - apply (proj1 (proj2 (proj2 (enroll_updates amina_biology 1 1)))
             (Student.mk 1 "Amina" [] []) (Course.mk 1 "Biology" [])
             eq_refl eq_refl).
    right. reflexivity.
  - apply (proj2 (proj2 (proj2 (enroll_updates amina_enrolled 1 1)))).
    apply tidy_exec; [apply tidy_initial | reflexivity].
Defined.

(** ** C3: the ids that [add_student] returns *)

Lemma count_from_lower : forall n k x, In x (count_from k n) -> k <= x.
Proof.
  induction n as [|n IH]; intros k x H; simpl in H; [contradiction|].
  destruct H as [<- | H]; [lia|]. apply IH in H. lia.
Qed.

Lemma count_from_sorted : forall n k, StronglySorted Z.lt (count_from k n).
Proof.
  induction n as [|n IH]; intro k; simpl; constructor.
  - apply IH.
  - apply Forall_forall. intros x Hx. apply count_from_lower in Hx. lia.
Qed.

Lemma count_from_nodup : forall n k, NoDup (count_from k n).
Proof.
  induction n as [|n IH]; intro k; simpl; constructor.
  - intro H. apply count_from_lower in H. lia.
  - apply IH.
Qed.

Lemma count_from_length : forall n k, List.length (count_from k n) = n.
Proof. induction n as [|n IH]; intro k; simpl; [|rewrite IH]; reflexivity. Qed.

(** Only a successful [add_student] moves the student counter, and it
    returns the value the counter had. *)
Lemma step_student_counter : forall w c,
  match c, ret (step w c) with
  | AddStudent _, Returned v =>
      v = VInt (Student_id_counter w) /\
      Student_id_counter (after (step w c)) = Student_id_counter w + 1
  | _, _ => Student_id_counter (after (step w c)) = Student_id_counter w
  end.
Proof.
  intros w c.
  destruct c; cbn [step cast after ret];
    unfold SystemManager.add_student, Student.init,
           SystemManager.remove_student,
           SystemManager.add_course, Course.init,
           SystemManager.remove_course,
           SystemManager.enroll_course, Student.enroll_in_course,
           Course.enroll_student,
           SystemManager.record_grade, Student.add_grade,
           SystemManager.search_courses,
           SystemManager.get_all_students, SystemManager.get_all_courses;
    manager_cases; cbn; auto.
Qed.

Lemma trace_ids : forall cs w,
  exists n,
    returned_student_ids (trace w cs) = count_from (Student_id_counter w) n.
Proof.
  induction cs as [|c r IH]; intro w.
  - exists O. reflexivity.
  - destruct (IH (after (step w c))) as [n Hn].
    pose proof (step_student_counter w c) as H.
    unfold returned_student_ids in *. cbn [trace flat_map].
    rewrite Hn. clear Hn.
    destruct c as [name | i | name | i | i j | q | i j g | | ];
      try (rewrite H; exists n; reflexivity).
    destruct (ret (step w (AddStudent name))) as [v | e].
    + destruct H as [-> ->]. exists (S n). reflexivity.
    + rewrite H. exists n. reflexivity.
Qed.

(** C3. For every sequence of calls made on a fresh process
    ([add_student] calls mixed with removals and any other call), the ids
    returned by the [add_student] calls are, in order, 1, 2, 3, ...:
    they start at 1, are strictly increasing, and none is returned twice. *)
Theorem add_student_ids_increase : forall cs,
  let ids := returned_student_ids (trace initial cs) in
  ids = count_from 1 (List.length ids) /\
  StronglySorted Z.lt ids /\
  NoDup ids.
Proof.
  intros cs ids. destruct (trace_ids cs initial) as [n Hn].
  change (Student_id_counter initial) with 1 in Hn.
  subst ids. rewrite Hn, count_from_length.
  split; [reflexivity|].
  split; [apply count_from_sorted | apply count_from_nodup].
Qed.

(** An id is not handed out again after its student was removed. *)
Example ids_after_removal :
  returned_student_ids
    (trace initial [AddStudent "Amina"; RemoveStudent 1; AddStudent "Bilal";
                    AddStudent EmptyString; AddStudent "Chadi"])
  = [1; 2; 3].
Proof. reflexivity. Qed.

(** ** C5: grades and enrollment *)

(** C5 does not hold of [SystemManager] with the [Student] class it
    imports: [Student.add_grade] checks the range only, so
    [record_grade] stores a grade for a course the student never
    enrolled in. *)
Theorem grade_without_enrollment :
  let w := exec initial [AddStudent "Amina"; AddCourse "Biology";
                         RecordGrade 1 1 90] in
  Dict.get Z.eqb (students w) 1
  = Some (Student.mk 1 "Amina" [("Biology", 90)] []).
Proof. reflexivity. Qed.

(** The sibling class does make the check: its [add_grade] raises for a
    course that is not in the student's list, and when it returns, the
    course it graded is in the list. *)
Lemma sibling_add_grade_checks : forall s course grade,
  (str_in course (Student.enrolled_courses s) = false ->
   StudentSTD.add_grade s course grade
   = Raised (ValueError ("Not enrolled in course " ++ course)%string)) /\
  (forall s', StudentSTD.add_grade s course grade = Returned s' ->
              In course (Student.enrolled_courses s') /\
              Student.enrolled_courses s' = Student.enrolled_courses s).
Proof.
  intros s course grade. unfold StudentSTD.add_grade. split.
  - intros ->. reflexivity.
  - intros s' H.
    destruct (str_in course (Student.enrolled_courses s)) eqn:E;
      [|discriminate].
    cbn in H. destruct (negb ((0 <=? grade) && (grade <=? 100)));
      [discriminate|].
    injection H as <-. cbn. split; [now apply str_in_iff | reflexivity].
Qed.

(** The sibling's [enroll_in_course] raises on a course already in the
    list, where the class the manager imports prints and returns. *)
Lemma sibling_enroll_raises : forall s course,
  str_in course (Student.enrolled_courses s) = true ->
  raises (StudentSTD.enroll_in_course s course) /\
  fst (Student.enroll_in_course s course) = s.
Proof.
  intros s course H.
  unfold StudentSTD.enroll_in_course, Student.enroll_in_course.
  rewrite H. split; [eexists; reflexivity | reflexivity].
Qed.

(** * Further properties of the code *)

(** ** Calls that raise *)

Lemma may_raise_correct : forall w c,
  may_raise w c = true <-> raises (ret (step w c)).
Proof.
  intros w c.
  assert (Hno : forall A (a : A), ~ raises (Returned a)).
  { intros A a [e H]. discriminate H. }
  assert (Hyes : forall A e, raises (@Raised A e)).
  { intros A e. now exists e. }
  destruct c as [name | i | name | i | i j | q | i j g | | ];
    cbn [step cast ret may_raise].
  - unfold SystemManager.add_student, Student.init.
    destruct (String.eqb name EmptyString); cbn; split; intro H;
      try reflexivity; try discriminate; auto.
    now apply Hno in H.
  - unfold SystemManager.remove_student. manager_cases; cbn;
      (split; [discriminate | intro H; now apply Hno in H]).
  - cbn. split; [discriminate | intro H; now apply Hno in H].
  - unfold SystemManager.remove_course. manager_cases; cbn;
      (split; [discriminate | intro H; now apply Hno in H]).
  - rewrite enroll_never_raises.
    split; [discriminate | intro H; now apply Hno in H].
  - cbn. split; [discriminate | intro H; now apply Hno in H].
  - unfold SystemManager.record_grade, Student.add_grade.
    destruct (Dict.get Z.eqb (students w) i) as [s|];
      [|cbn; split; [discriminate | intro H; now apply Hno in H]].
    destruct (Dict.get Z.eqb (courses w) j) as [c|];
      [|cbn; split; [discriminate | intro H; now apply Hno in H]].
    destruct (Z.leb_spec 0 g); destruct (Z.leb_spec g 100);
      destruct (Z.ltb_spec g 0); destruct (Z.ltb_spec 100 g);
      try lia; cbn; split; intro Hr; try reflexivity; try discriminate;
      auto; now apply Hno in Hr.
  - cbn. split; [discriminate | intro H; now apply Hno in H].
  - cbn. split; [discriminate | intro H; now apply Hno in H].
Qed.

Lemma raise_leaves_state : forall w c,
  raises (ret (step w c)) ->
  after (step w c) = w /\ printed (step w c) = [].
Proof.
  intros w c H.
  assert (Hno : forall A (a : A), ~ raises (Returned a)).
  { intros A a [e He]. discriminate He. }
  destruct c as [name | i | name | i | i j | q | i j g | | ];
    cbn [step cast ret after printed] in *.
  - unfold SystemManager.add_student, Student.init in *.
    destruct (String.eqb name EmptyString); cbn in *;
      [split; reflexivity | now apply Hno in H].
  - unfold SystemManager.remove_student in *. revert H.
    manager_cases; cbn; intro H; now apply Hno in H.
  - cbn in H. now apply Hno in H.
  - unfold SystemManager.remove_course in *. revert H.
    manager_cases; cbn; intro H; now apply Hno in H.
  - rewrite enroll_never_raises in H. now apply Hno in H.
  - cbn in H. now apply Hno in H.
  - unfold SystemManager.record_grade, Student.add_grade in *. revert H.
    manager_cases; cbn; intro H;
      try (now apply Hno in H); split; reflexivity.
  - cbn in H. now apply Hno in H.
  - cbn in H. now apply Hno in H.
Qed.

(** X2. A call on the manager raises only in two cases: [add_student]
    with the empty name, and [record_grade] for a registered student and
    a registered course with a grade below 0 or above 100. A call that
    raises has printed nothing and left the whole state as it was: a
    rejected name does not use up an id, a rejected grade is not
    stored. *)
Theorem raising_call_is_clean : forall w c,
  raises (ret (step w c)) ->
  may_raise w c = true /\
  after (step w c) = w /\
  printed (step w c) = [].
Proof.
  intros w c H. split; [now apply may_raise_correct|].
  now apply raise_leaves_state.
Qed.

(** The empty name after Amina enrolled: the counter stays at 2. *)
Lemma raising_call_is_clean_witness :
  after (step amina_enrolled (AddStudent EmptyString)) = amina_enrolled /\
  after (step amina_enrolled (RecordGrade 1 1 101)) = amina_enrolled.
Proof.
  split.
  - apply (raising_call_is_clean amina_enrolled (AddStudent EmptyString)).
    eexists. reflexivity.
  - apply (raising_call_is_clean amina_enrolled (RecordGrade 1 1 101)).
    eexists. reflexivity.
Defined.

(** ** Removal *)

Lemma get_del_none : forall (V : Type) (d : list (Z * V)) k i,
  Dict.get Z.eqb d i = None -> Dict.get Z.eqb (Dict.del Z.eqb d k) i = None.
Proof.
  intros V d k i H. destruct (Z.eq_dec i k) as [-> | Hne].
  - apply (get_del_same Z.eqb).
  - now rewrite (get_del_other Z.eqb Z.eqb_eq).
Qed.

Lemma get_set_none : forall (V : Type) (d : list (Z * V)) k v i,
  i <> k -> Dict.get Z.eqb d i = None ->
  Dict.get Z.eqb (Dict.set Z.eqb d k v) i = None.
Proof.
  intros V d k v i Hne H. now rewrite (get_set_other Z.eqb Z.eqb_eq).
Qed.

(** An id below the counter that is not registered stays unregistered. *)
Lemma student_stays_absent : forall w c i,
  Dict.get Z.eqb (students w) i = None ->
  i < Student_id_counter w ->
  Dict.get Z.eqb (students (after (step w c))) i = None /\
  i < Student_id_counter (after (step w c)).
Proof.
  intros w c i Hi Hlt.
  destruct c as [name | k | name | k | k j | q | k j g | | ];
    cbn [step cast after].
  - unfold SystemManager.add_student, Student.init.
    destruct (String.eqb name EmptyString); cbn; [now split|].
    split; [apply get_set_none; [lia | exact Hi] | lia].
  - unfold SystemManager.remove_student. manager_cases; cbn;
      split; auto using get_del_none.
  - cbn. now split.
  - unfold SystemManager.remove_course. manager_cases; cbn; now split.
  - destruct (Dict.get Z.eqb (students w) k) as [s|] eqn:Hk.
    2:{ rewrite enroll_unknown by now left. now split. }
    destruct (Dict.get Z.eqb (courses w) j) as [co|] eqn:Hj.
    2:{ rewrite enroll_unknown by now right. now split. }
    destruct (str_in (Course.name co) (Student.enrolled_courses s)) eqn:E.
    + rewrite (enroll_duplicate _ _ _ s co) by assumption. now split.
    + rewrite (enroll_fresh _ _ _ s co) by assumption. cbn.
      split; [apply get_set_none; [congruence | exact Hi] | exact Hlt].
  - cbn. now split.
  - unfold SystemManager.record_grade, Student.add_grade.
    destruct (Dict.get Z.eqb (students w) k) as [s|] eqn:Hk;
      [|now split].
    destruct (Dict.get Z.eqb (courses w) j) as [co|]; [|now split].
    destruct (negb ((0 <=? g) && (g <=? 100))); cbn; [now split|].
    split; [apply get_set_none; [congruence | exact Hi] | exact Hlt].
  - cbn. now split.
  - cbn. now split.
Qed.

Lemma course_stays_absent : forall w c j,
  Dict.get Z.eqb (courses w) j = None ->
  j < Course_id_counter w ->
  Dict.get Z.eqb (courses (after (step w c))) j = None /\
  j < Course_id_counter (after (step w c)).
Proof.
  intros w c j Hj Hlt.
  destruct c as [name | k | name | k | i k | q | i k g | | ];
    cbn [step cast after].
  - unfold SystemManager.add_student, Student.init.
    destruct (String.eqb name EmptyString); cbn; now split.
  - unfold SystemManager.remove_student. manager_cases; cbn; now split.
  - cbn. split; [apply get_set_none; [lia | exact Hj] | lia].
  - unfold SystemManager.remove_course. manager_cases; cbn;
      split; auto using get_del_none.
  - destruct (Dict.get Z.eqb (students w) i) as [s|] eqn:Hi.
    2:{ rewrite enroll_unknown by now left. now split. }
    destruct (Dict.get Z.eqb (courses w) k) as [co|] eqn:Hk.
    2:{ rewrite enroll_unknown by now right. now split. }
    destruct (str_in (Course.name co) (Student.enrolled_courses s)) eqn:E.
    + rewrite (enroll_duplicate _ _ _ s co) by assumption. now split.
    + rewrite (enroll_fresh _ _ _ s co) by assumption. cbn.
      split; [apply get_set_none; [congruence | exact Hj] | exact Hlt].
  - cbn. now split.
  - unfold SystemManager.record_grade, Student.add_grade.
    manager_cases; cbn; now split.
  - cbn. now split.
  - cbn. now split.
Qed.

Lemma student_absent_exec : forall cs w i,
  Dict.get Z.eqb (students w) i = None ->
  i < Student_id_counter w ->
  Dict.get Z.eqb (students (exec w cs)) i = None.
Proof.
  induction cs as [|c r IH]; intros w i Hi Hlt; [exact Hi|].
  destruct (student_stays_absent w c i Hi Hlt) as [H1 H2].
  now apply IH.
Qed.

Lemma course_absent_exec : forall cs w j,
  Dict.get Z.eqb (courses w) j = None ->
  j < Course_id_counter w ->
  Dict.get Z.eqb (courses (exec w cs)) j = None.
Proof.
  induction cs as [|c r IH]; intros w j Hj Hlt; [exact Hj|].
  destruct (course_stays_absent w c j Hj Hlt) as [H1 H2].
  now apply IH.
Qed.

(** X3. [remove_student] on a registered student with no enrolled course
    prints "Student removed successfully."; afterwards the id is not
    registered, every other id maps to the student it mapped to, and the
    courses are untouched. If the id was below the student counter (as
    every registered id of a running process is) it is never registered
    again, whatever calls follow: the id is retired. *)
Theorem removed_student_is_gone : forall w student_id s,
  Dict.get Z.eqb (students w) student_id = Some s ->
  Student.enrolled_courses s = [] ->
  let o := SystemManager.remove_student w student_id in
  printed o = ["Student removed successfully."] /\
  ret o = Returned tt /\
  Dict.get Z.eqb (students (after o)) student_id = None /\
  (forall k, k <> student_id ->
     Dict.get Z.eqb (students (after o)) k
     = Dict.get Z.eqb (students w) k) /\
  (student_id < Student_id_counter w ->
   forall cs,
     Dict.get Z.eqb (students (exec (after o) cs)) student_id = None).
Proof.
  intros w student_id s Hs Hl o. subst o.
  unfold SystemManager.remove_student. rewrite Hs, Hl. cbn.
  split; [reflexivity | split; [reflexivity|]].
  split; [apply (get_del_same Z.eqb)|].
  split.
  - intros k Hk. now apply (get_del_other Z.eqb Z.eqb_eq).
  - intros Hlt cs. apply student_absent_exec; cbn;
      [apply (get_del_same Z.eqb) | exact Hlt].
Qed.

(** Amina leaves; a later student gets id 3, never id 1. *)
Lemma removed_student_is_gone_witness :
  Dict.get Z.eqb
    (students (exec (after (SystemManager.remove_student bilal_joined 1))
                 [AddStudent "Chadi"; AddCourse "Math"; EnrollCourse 3 1]))
    1 = None.
Proof.
  apply (removed_student_is_gone bilal_joined 1 (Student.mk 1 "Amina" [] [])
           eq_refl eq_refl).
  reflexivity.
Defined.

(** X4. [remove_course] never raises. For an unknown id it prints
    "Invalid course ID." and changes nothing; for a course with at least
    one enrolled student it prints
    "Course has enrolled students. Cannot remove." and changes nothing;
    for a course with none it prints "Course removed successfully.",
    the id is no longer registered, every other course and all students
    are untouched, and an id below the course counter is never
    registered again. *)
Theorem remove_course_spec : forall w course_id,
  let o := SystemManager.remove_course w course_id in
  ret o = Returned tt /\
  (Dict.get Z.eqb (courses w) course_id = None ->
   o = mkOutcome w ["Invalid course ID."] (Returned tt)) /\
  (forall c,
     Dict.get Z.eqb (courses w) course_id = Some c ->
     Course.enrolled_students c <> [] ->
     o = mkOutcome w ["Course has enrolled students. Cannot remove."]
           (Returned tt)) /\
  (forall c,
     Dict.get Z.eqb (courses w) course_id = Some c ->
     Course.enrolled_students c = [] ->
     printed o = ["Course removed successfully."] /\
     Dict.get Z.eqb (courses (after o)) course_id = None /\
     (forall k, k <> course_id ->
        Dict.get Z.eqb (courses (after o)) k
        = Dict.get Z.eqb (courses w) k) /\
     students (after o) = students w /\
     (course_id < Course_id_counter w ->
      forall cs,
        Dict.get Z.eqb (courses (exec (after o) cs)) course_id = None)).
Proof.
  intros w course_id o. subst o. unfold SystemManager.remove_course.
  split; [manager_cases; reflexivity|].
  split; [intros ->; reflexivity|].
  split.
  - intros c Hc Hne. rewrite Hc.
    destruct (Course.enrolled_students c); [congruence | reflexivity].
  - intros c Hc Hl. rewrite Hc, Hl. cbn.
    split; [reflexivity|].
    split; [apply (get_del_same Z.eqb)|].
    split; [intros k Hk; now apply (get_del_other Z.eqb Z.eqb_eq)|].
    split; [reflexivity|].
    intros Hlt cs. apply course_absent_exec; cbn;
      [apply (get_del_same Z.eqb) | exact Hlt].
Qed.

(** Biology cannot go while Amina is in it; before she enrolled it can,
    and then id 1 is not given to the next course. *)
Lemma remove_course_spec_witness :
  SystemManager.remove_course amina_enrolled 1
  = mkOutcome amina_enrolled
      ["Course has enrolled students. Cannot remove."] (Returned tt) /\
  Dict.get Z.eqb
    (courses (exec (after (SystemManager.remove_course amina_biology 1))
                [AddCourse "Chemistry"])) 1 = None.
Proof.
  split.
  - apply (proj1 (proj2 (proj2 (remove_course_spec amina_enrolled 1)))
             (Course.mk 1 "Biology" ["Amina"]) eq_refl).
    discriminate.
  - apply (proj2 (proj2 (proj2 (remove_course_spec amina_biology 1)))
             (Course.mk 1 "Biology" []) eq_refl eq_refl).
    reflexivity.
Defined.

(** ** [add_course] and the course counter *)

(** Only [add_course] moves the course counter; it always returns the
    value the counter had. *)
Lemma step_course_counter : forall w c,
  match c with
  | AddCourse _ =>
      ret (step w c) = Returned (VInt (Course_id_counter w)) /\
      Course_id_counter (after (step w c)) = Course_id_counter w + 1
  | _ => Course_id_counter (after (step w c)) = Course_id_counter w
  end.
Proof.
  intros w c.
  destruct c; cbn [step cast after ret];
    unfold SystemManager.add_student, Student.init,
           SystemManager.remove_student,
           SystemManager.add_course, Course.init,
           SystemManager.remove_course,
           SystemManager.enroll_course, Student.enroll_in_course,
           Course.enroll_student,
           SystemManager.record_grade, Student.add_grade,
           SystemManager.search_courses,
           SystemManager.get_all_students, SystemManager.get_all_courses;
    manager_cases; cbn; auto.
Qed.

Lemma trace_course_ids : forall cs w,
  exists n,
    returned_course_ids (trace w cs) = count_from (Course_id_counter w) n.
Proof.
  induction cs as [|c r IH]; intro w.
  - exists O. reflexivity.
  - destruct (IH (after (step w c))) as [n Hn].
    pose proof (step_course_counter w c) as H.
    unfold returned_course_ids in *. cbn [trace flat_map].
    rewrite Hn. clear Hn.
    destruct c as [name | i | name | i | i j | q | i j g | | ];
      try (rewrite H; exists n; reflexivity).
    destruct H as [-> ->]. exists (S n). reflexivity.
Qed.

(** X5. [add_course] never fails, the empty name included (unlike
    [add_student]): it returns the current value of
    [Course._id_counter] and stores a course with that id, the given
    name and no students. On a fresh process the ids returned by the
    [add_course] calls of any sequence of calls are 1, 2, 3, ... in
    order, whatever [add_student] and other calls come in between: the
    course counter is independent of the student counter. *)
Theorem add_course_ids : forall cs,
  (forall w name,
     let o := SystemManager.add_course w name in
     ret o = Returned (Course_id_counter w) /\
     Dict.get Z.eqb (courses (after o)) (Course_id_counter w)
     = Some (Course.mk (Course_id_counter w) name []) /\
     Student_id_counter (after o) = Student_id_counter w) /\
  let ids := returned_course_ids (trace initial cs) in
  ids = count_from 1 (List.length ids) /\
  StronglySorted Z.lt ids /\
  NoDup ids.
Proof.
  intros cs. split.
  - intros w name. cbn. split; [reflexivity|].
    split; [apply (get_set_same Z.eqb Z.eqb_eq) | reflexivity].
  - intros ids. destruct (trace_course_ids cs initial) as [n Hn].
    change (Course_id_counter initial) with 1 in Hn.
    subst ids. rewrite Hn, count_from_length.
    split; [reflexivity|].
    split; [apply count_from_sorted | apply count_from_nodup].
Qed.

(** Students do not use up course ids, and a course may have no name. *)
Example course_ids_example :
  returned_course_ids
    (trace initial [AddStudent "Amina"; AddCourse "Biology";
                    AddStudent "Bilal"; RemoveCourse 1;
                    AddCourse EmptyString])
  = [1; 2].
Proof. reflexivity. Qed.

(** ** The order of the two dictionaries *)

Section IdOrder.
Context {V : Type} (id : V -> Z).

Lemma set_above : forall (d : list (Z * V)) k v,
  Forall (fun kv => fst kv < k) d ->
  Dict.set Z.eqb d k v = d ++ [(k, v)].
Proof.
  induction d as [|[k0 v0] r IH]; intros k v H; simpl; [reflexivity|].
  inversion H as [|x l Hx Hr]; subst. cbn in Hx.
  destruct (Z.eqb_spec k k0); [lia|]. f_equal. now apply IH.
Qed.

Lemma sorted_snoc : forall (l : list Z) k,
  StronglySorted Z.lt l -> Forall (fun x => x < k) l ->
  StronglySorted Z.lt (l ++ [k]).
Proof.
  induction l as [|x r IH]; intros k Hs Hf; simpl.
  - constructor; constructor.
  - inversion Hs as [|y l' Hs' Hall]; subst.
    inversion Hf as [|y l' Hx Hr]; subst.
    constructor; [now apply IH|].
    apply Forall_app. split; [assumption | now constructor].
Qed.

Lemma in_id_order_add : forall n (d : list (Z * V)) v,
  in_id_order id n d -> 1 <= n -> id v = n ->
  in_id_order id (n + 1) (Dict.set Z.eqb d n v).
Proof.
  intros n d v [Hs Hf] Hn Hid.
  assert (Hlt : Forall (fun kv : Z * V => fst kv < n) d).
  { eapply Forall_impl; [|exact Hf]. cbn. intros kv H. lia. }
  rewrite set_above by assumption. split.
  - rewrite map_app. apply sorted_snoc; [assumption|].
    apply Forall_map. exact Hlt.
  - apply Forall_app. split.
    + eapply Forall_impl; [|exact Hf]. cbn. intros kv H. lia.
    + constructor; [cbn; lia | constructor].
Qed.

Lemma in_id_order_update : forall n (d : list (Z * V)) k v v0,
  in_id_order id n d ->
  Dict.get Z.eqb d k = Some v0 ->
  id v = id v0 ->
  in_id_order id n (Dict.set Z.eqb d k v).
Proof.
  intros n d k v v0 [Hs Hf]. revert Hs Hf.
  induction d as [|[k1 v1] r IH]; intros Hs Hf Hget Hid; simpl in *.
  - discriminate.
  - inversion Hs as [|y l' Hs' Hall]; subst.
    inversion Hf as [|y l' Hx Hr]; subst. cbn in Hx.
    destruct (Z.eqb k k1).
    + injection Hget as Hv. subst v0. destruct Hx as [Hb Hi]. split; cbn.
      * now constructor.
      * constructor; [cbn; split; [lia | congruence] | assumption].
    + destruct (IH Hs' Hr Hget Hid) as [Hs2 Hf2].
      assert (Hk : map fst (Dict.set Z.eqb r k v) = map fst r).
      { clear - Hget. revert Hget.
        induction r as [|[k2 v2] r' IH']; simpl; [discriminate|].
        destruct (Z.eqb k k2); [reflexivity|].
        intro H. cbn. f_equal. now apply IH'. }
      split; cbn.
      * constructor; [assumption | now rewrite Hk].
      * constructor; assumption.
Qed.

Lemma in_id_order_del : forall n (d : list (Z * V)) k,
  in_id_order id n d -> in_id_order id n (Dict.del Z.eqb d k).
Proof.
  intros n d k [Hs Hf]. unfold Dict.del. split.
  - clear Hf. induction d as [|[k1 v1] r IH]; simpl; [constructor|].
    inversion Hs as [|y l' Hs' Hall]; subst.
    destruct (negb (Z.eqb k k1)); cbn; [|now apply IH].
    constructor; [now apply IH|].
    apply Forall_forall. intros x Hx. apply in_map_iff in Hx.
    destruct Hx as [[k2 v2] [<- Hin]]. apply filter_In in Hin.
    rewrite Forall_forall in Hall. apply Hall.
    apply in_map_iff. exists (k2, v2). now split.
  - apply Forall_forall. intros kv Hin. apply filter_In in Hin.
    rewrite Forall_forall in Hf. now apply Hf.
Qed.

Lemma in_id_order_weaken : forall n (d : list (Z * V)),
  in_id_order id n d -> in_id_order id (n + 1) d.
Proof.
  intros n d [Hs Hf]. split; [assumption|].
  eapply Forall_impl; [|exact Hf]. cbn. intros kv H. lia.
Qed.

(** In such a dictionary an entry is found under its key. *)
Lemma get_of_in : forall (d : list (Z * V)) k v,
  StronglySorted Z.lt (map fst d) -> In (k, v) d ->
  Dict.get Z.eqb d k = Some v.
Proof.
  induction d as [|[k1 v1] r IH]; intros k v Hs Hin; simpl in *;
    [contradiction|].
  inversion Hs as [|y l' Hs' Hall]; subst.
  destruct Hin as [Heq | Hin].
  - injection Heq as -> ->. now rewrite Z.eqb_refl.
  - assert (k1 < k).
    { rewrite Forall_forall in Hall. apply Hall.
      apply in_map_iff. exists (k, v). now split. }
    destruct (Z.eqb_spec k k1); [lia | now apply IH].
Qed.

Lemma in_of_get : forall (d : list (Z * V)) k v,
  Dict.get Z.eqb d k = Some v -> In (k, v) d.
Proof.
  induction d as [|[k1 v1] r IH]; intros k v H; simpl in *; [discriminate|].
  destruct (Z.eqb_spec k k1) as [-> | Hne].
  - injection H as <-. now left.
  - right. now apply IH.
Qed.

Lemma values_ids : forall n (d : list (Z * V)),
  in_id_order id n d -> map id (Dict.values d) = map fst d.
Proof.
  intros n d [_ Hf]. unfold Dict.values. rewrite map_map.
  apply map_ext_in. intros kv Hin.
  rewrite Forall_forall in Hf. now apply Hf.
Qed.

Lemma listed_iff_registered : forall n (d : list (Z * V)) v,
  in_id_order id n d ->
  (In v (Dict.values d) <-> Dict.get Z.eqb d (id v) = Some v).
Proof.
  intros n d v [Hs Hf]. split.
  - intro Hin. unfold Dict.values in Hin. apply in_map_iff in Hin.
    destruct Hin as [[k v'] [Hv Hin]]. cbn in Hv. subst v'.
    rewrite Forall_forall in Hf. destruct (Hf _ Hin) as [_ Hid].
    cbn in Hid. rewrite Hid. now apply get_of_in.
  - intro H. apply in_of_get in H. unfold Dict.values.
    apply in_map_iff. exists (id v, v). now split.
Qed.

End IdOrder.

Lemma enroll_student_id : forall c name,
  Course.course_id (fst (Course.enroll_student c name)) = Course.course_id c.
Proof.
  intros c name. unfold Course.enroll_student.
  destruct (negb (str_in name (Course.enrolled_students c))); reflexivity.
Qed.

Lemma registry_in_order_step : forall w c,
  registry_in_order w /\
  1 <= Student_id_counter w /\ 1 <= Course_id_counter w ->
  registry_in_order (after (step w c)) /\
  1 <= Student_id_counter (after (step w c)) /\
  1 <= Course_id_counter (after (step w c)).
Proof.
  intros w c [[Hs Hc] [H1 H2]].
  assert (Hsame : registry_in_order w /\
                  1 <= Student_id_counter w /\ 1 <= Course_id_counter w)
    by (split; [split; assumption | split; assumption]).
  destruct c as [name | i | name | i | i j | q | i j g | | ];
    cbn [step cast after]; try exact Hsame.
  - unfold SystemManager.add_student, Student.init.
    destruct (String.eqb name EmptyString);
      cbn [after Student.student_id]; [exact Hsame|].
    split; [split|]; cbn [students courses Student_id_counter
                          Course_id_counter]; [| exact Hc | lia].
    now apply in_id_order_add.
  - unfold SystemManager.remove_student.
    destruct (Dict.get Z.eqb (students w) i) as [s|]; [|exact Hsame].
    destruct (Student.enrolled_courses s); [|exact Hsame].
    split; [split|]; cbn [after students courses Student_id_counter
                          Course_id_counter]; [| exact Hc | now split].
    now apply in_id_order_del.
  - unfold SystemManager.add_course, Course.init.
    split; [split|]; cbn [after students courses Student_id_counter
                          Course_id_counter Course.course_id];
      [exact Hs | | lia].
    now apply in_id_order_add.
  - unfold SystemManager.remove_course.
    destruct (Dict.get Z.eqb (courses w) i) as [co|]; [|exact Hsame].
    destruct (Course.enrolled_students co); [|exact Hsame].
    split; [split|]; cbn [after students courses Student_id_counter
                          Course_id_counter]; [exact Hs | | now split].
    now apply in_id_order_del.
  - destruct (Dict.get Z.eqb (students w) i) as [s|] eqn:Hi.
    2:{ rewrite enroll_unknown by now left. exact Hsame. }
    destruct (Dict.get Z.eqb (courses w) j) as [co|] eqn:Hj.
    2:{ rewrite enroll_unknown by now right. exact Hsame. }
    destruct (str_in (Course.name co) (Student.enrolled_courses s)) eqn:E.
    + rewrite (enroll_duplicate _ _ _ s co) by assumption. exact Hsame.
    + rewrite (enroll_fresh _ _ _ s co) by assumption.
      split; [split|]; cbn [after students courses Student_id_counter
                            Course_id_counter]; [| | now split].
      * now apply in_id_order_update with (v0 := s).
      * apply in_id_order_update with (v0 := co);
          [assumption | assumption | apply enroll_student_id].
  - unfold SystemManager.record_grade, Student.add_grade.
    destruct (Dict.get Z.eqb (students w) i) as [s|] eqn:Hi;
      [|exact Hsame].
    destruct (Dict.get Z.eqb (courses w) j) as [co|]; [|exact Hsame].
    destruct (negb ((0 <=? g) && (g <=? 100))); [exact Hsame|].
    split; [split|]; cbn [after students courses Student_id_counter
                          Course_id_counter]; [| exact Hc | now split].
    now apply in_id_order_update with (v0 := s).
Qed.

Lemma registry_in_order_exec : forall cs w,
  registry_in_order w /\
  1 <= Student_id_counter w /\ 1 <= Course_id_counter w ->
  registry_in_order (exec w cs).
Proof.
  induction cs as [|c r IH]; intros w H; [apply H|].
  apply IH. now apply registry_in_order_step.
Qed.

Lemma initial_in_order :
  registry_in_order initial /\
  1 <= Student_id_counter initial /\ 1 <= Course_id_counter initial.
Proof.
  split; [split; split; constructor | cbn; lia].
Qed.

(** X6. In every state reached from a fresh process, [get_all_students]
    returns the registered students in strictly increasing order of
    their ids (the order in which they were added), each stored under its
    own [student_id], with ids from 1 to below the counter; a student is
    in the list exactly when looking up its id gives that student. The
    same holds of [get_all_courses]. Neither call prints or changes
    anything. *)
Theorem listings_in_id_order : forall cs,
  let w := exec initial cs in
  (exists l,
     SystemManager.get_all_students w = mkOutcome w [] (Returned l) /\
     StronglySorted Z.lt (map Student.student_id l) /\
     Forall (fun s => 1 <= Student.student_id s < Student_id_counter w) l /\
     forall s, In s l <->
               Dict.get Z.eqb (students w) (Student.student_id s) = Some s) /\
  (exists l,
     SystemManager.get_all_courses w = mkOutcome w [] (Returned l) /\
     StronglySorted Z.lt (map Course.course_id l) /\
     Forall (fun c => 1 <= Course.course_id c < Course_id_counter w) l /\
     forall c, In c l <->
               Dict.get Z.eqb (courses w) (Course.course_id c) = Some c).
Proof.
  intros cs w.
  destruct (registry_in_order_exec cs initial initial_in_order) as [Hs Hc].
  fold w in Hs, Hc. split.
  - exists (Dict.values (students w)). split; [reflexivity|].
    split; [|split].
    + rewrite (values_ids _ _ _ Hs). apply Hs.
    + destruct Hs as [_ Hf]. unfold Dict.values. apply Forall_map.
      eapply Forall_impl; [|exact Hf]. cbn. intros kv [Hb Hid].
      now rewrite Hid.
    + intro s. now apply listed_iff_registered with (n := Student_id_counter w).
  - exists (Dict.values (courses w)). split; [reflexivity|].
    split; [|split].
    + rewrite (values_ids _ _ _ Hc). apply Hc.
    + destruct Hc as [_ Hf]. unfold Dict.values. apply Forall_map.
      eapply Forall_impl; [|exact Hf]. cbn. intros kv [Hb Hid].
      now rewrite Hid.
    + intro c. now apply listed_iff_registered with (n := Course_id_counter w).
Qed.

(** ** Invariants of the registered objects *)

Lemma get_set_inv : forall (V : Type) (d : list (Z * V)) k v k' x,
  Dict.get Z.eqb (Dict.set Z.eqb d k v) k' = Some x ->
  (k' = k /\ x = v) \/ (k' <> k /\ Dict.get Z.eqb d k' = Some x).
Proof.
  intros V d k v k' x H. destruct (Z.eq_dec k' k) as [-> | Hne].
  - rewrite (get_set_same Z.eqb Z.eqb_eq) in H. left. split; congruence.
  - rewrite (get_set_other Z.eqb Z.eqb_eq) in H by assumption. now right.
Qed.

Lemma get_del_inv : forall (V : Type) (d : list (Z * V)) k k' x,
  Dict.get Z.eqb (Dict.del Z.eqb d k) k' = Some x ->
  Dict.get Z.eqb d k' = Some x.
Proof.
  intros V d k k' x H. destruct (Z.eq_dec k' k) as [-> | Hne].
  - rewrite (get_del_same Z.eqb) in H. discriminate.
  - now rewrite (get_del_other Z.eqb Z.eqb_eq) in H.
Qed.

(** A property of students and a property of courses that hold of new
    objects and survive the three updates the manager makes (a new
    course name at the end of a student's list, a grade from 0 to 100
    written to a student's grades, a new student name at the end of a
    course's list) hold of every registered object after every call. *)
Section ObjectInvariant.
Variable P : Student.t -> Prop.
Variable Q : Course.t -> Prop.
Hypothesis P_new : forall n name, P (Student.mk n name [] []).
Hypothesis P_enroll : forall s m,
  P s -> str_in m (Student.enrolled_courses s) = false ->
  P (Student.set_enrolled_courses s (Student.enrolled_courses s ++ [m])).
Hypothesis P_grade : forall s m g,
  P s -> 0 <= g <= 100 ->
  P (Student.set_grades s (Dict.set String.eqb (Student.grades s) m g)).
Hypothesis Q_new : forall n name, Q (Course.mk n name []).
Hypothesis Q_enroll : forall c n,
  Q c -> str_in n (Course.enrolled_students c) = false ->
  Q (Course.set_enrolled_students c (Course.enrolled_students c ++ [n])).

Lemma Q_enroll_student : forall c n,
  Q c -> Q (fst (Course.enroll_student c n)).
Proof.
  intros c n H. unfold Course.enroll_student.
  destruct (str_in n (Course.enrolled_students c)) eqn:E; cbn;
    [exact H | now apply Q_enroll].
Qed.

Lemma objects_step : forall w c,
  (forall k s, Dict.get Z.eqb (students w) k = Some s -> P s) /\
  (forall k co, Dict.get Z.eqb (courses w) k = Some co -> Q co) ->
  (forall k s,
     Dict.get Z.eqb (students (after (step w c))) k = Some s -> P s) /\
  (forall k co,
     Dict.get Z.eqb (courses (after (step w c))) k = Some co -> Q co).
Proof.
  intros w c [HP HQ].
  assert (Hsame :
    (forall k s, Dict.get Z.eqb (students w) k = Some s -> P s) /\
    (forall k co, Dict.get Z.eqb (courses w) k = Some co -> Q co))
    by now split.
  destruct c as [name | i | name | i | i j | q | i j g | | ];
    cbn [step cast after]; try exact Hsame.
  - unfold SystemManager.add_student, Student.init.
    destruct (String.eqb name EmptyString); cbn; [exact Hsame|].
    split; [|exact HQ]. intros k s H.
    apply get_set_inv in H. destruct H as [[_ ->] | [_ H]]; eauto.
  - unfold SystemManager.remove_student.
    destruct (Dict.get Z.eqb (students w) i) as [s0|]; [|exact Hsame].
    destruct (Student.enrolled_courses s0); [|exact Hsame]. cbn.
    split; [|exact HQ]. intros k s H. apply get_del_inv in H. eauto.
  - cbn. split; [exact HP|]. intros k co H.
    apply get_set_inv in H. destruct H as [[_ ->] | [_ H]]; eauto.
  - unfold SystemManager.remove_course.
    destruct (Dict.get Z.eqb (courses w) i) as [c0|]; [|exact Hsame].
    destruct (Course.enrolled_students c0); [|exact Hsame]. cbn.
    split; [exact HP|]. intros k co H. apply get_del_inv in H. eauto.
  - destruct (Dict.get Z.eqb (students w) i) as [s0|] eqn:Hi.
    2:{ rewrite enroll_unknown by now left. exact Hsame. }
    destruct (Dict.get Z.eqb (courses w) j) as [c0|] eqn:Hj.
    2:{ rewrite enroll_unknown by now right. exact Hsame. }
    destruct (str_in (Course.name c0) (Student.enrolled_courses s0)) eqn:E.
    + rewrite (enroll_duplicate _ _ _ s0 c0) by assumption. exact Hsame.
    + rewrite (enroll_fresh _ _ _ s0 c0) by assumption. cbn. split.
      * intros k s H. apply get_set_inv in H.
        destruct H as [[_ ->] | [_ H]]; eauto.
      * intros k co H. apply get_set_inv in H.
        destruct H as [[_ ->] | [_ H]]; eauto using Q_enroll_student.
  - unfold SystemManager.record_grade, Student.add_grade.
    destruct (Dict.get Z.eqb (students w) i) as [s0|] eqn:Hi;
      [|exact Hsame].
    destruct (Dict.get Z.eqb (courses w) j) as [c0|]; [|exact Hsame].
    destruct (Z.leb_spec 0 g); destruct (Z.leb_spec g 100); cbn;
      try exact Hsame.
    split; [|exact HQ]. intros k s H1.
    apply get_set_inv in H1. destruct H1 as [[_ ->] | [_ H1]]; eauto.
Qed.

Lemma objects_exec : forall cs k,
  (forall s, Dict.get Z.eqb (students (exec initial cs)) k = Some s -> P s) /\
  (forall co, Dict.get Z.eqb (courses (exec initial cs)) k = Some co -> Q co).
Proof.
  intros cs k.
  assert (H : forall cs w,
    (forall k s, Dict.get Z.eqb (students w) k = Some s -> P s) /\
    (forall k co, Dict.get Z.eqb (courses w) k = Some co -> Q co) ->
    (forall k s, Dict.get Z.eqb (students (exec w cs)) k = Some s -> P s) /\
    (forall k co, Dict.get Z.eqb (courses (exec w cs)) k = Some co -> Q co)).
  { clear cs k. induction cs as [|c r IH]; intros w Hw; [exact Hw|].
    apply IH. now apply objects_step. }
  destruct (H cs initial) as [H1 H2].
  - split; intros; discriminate.
  - split; eauto.
Qed.

End ObjectInvariant.

Section SetFacts.
Context {K V : Type} (eqb : K -> K -> bool).
Hypothesis eqb_eq : forall x y, eqb x y = true <-> x = y.

Lemma set_keys_in : forall (d : list (K * V)) k v x,
  In x (map fst (Dict.set eqb d k v)) -> In x (map fst d) \/ x = k.
Proof.
  induction d as [|[k1 v1] r IH]; intros k v x H; simpl in *.
  - destruct H as [<- | []]. now right.
  - destruct (eqb k k1); simpl in H.
    + now left.
    + destruct H as [<- | H]; [left; now left|].
      apply IH in H. destruct H; [left; now right | now right].
Qed.

Lemma set_keys_nodup : forall (d : list (K * V)) k v,
  NoDup (map fst d) -> NoDup (map fst (Dict.set eqb d k v)).
Proof.
  induction d as [|[k1 v1] r IH]; intros k v H; simpl in *.
  - constructor; [intros [] | constructor].
  - inversion H as [|x l Hnin Hnd]; subst.
    destruct (eqb k k1) eqn:E; simpl.
    + now constructor.
    + constructor; [|now apply IH].
      intro Hin. apply set_keys_in in Hin. destruct Hin as [Hin | ->].
      * contradiction.
      * rewrite (proj2 (eqb_eq k k) eq_refl) in E. discriminate.
Qed.

Lemma set_values_forall : forall (R : V -> Prop) (d : list (K * V)) k v,
  Forall (fun kv => R (snd kv)) d -> R v ->
  Forall (fun kv => R (snd kv)) (Dict.set eqb d k v).
Proof.
  induction d as [|[k1 v1] r IH]; intros k v H Hv; simpl.
  - constructor; [exact Hv | constructor].
  - inversion H as [|x l Hx Hr]; subst.
    destruct (eqb k k1); constructor; auto.
Qed.

End SetFacts.

Lemma nodup_snoc : forall (l : list string) x,
  NoDup l -> str_in x l = false -> NoDup (l ++ [x]).
Proof.
  intros l x Hnd Hx.
  assert (Hnin : ~ In x l).
  { intro Hin. apply str_in_iff in Hin. congruence. }
  clear Hx. induction l as [|y r IH]; simpl.
  - constructor; [intros [] | constructor].
  - inversion Hnd as [|z l' Hy Hr]; subst. constructor.
    + rewrite in_app_iff. intros [H | [H | []]]; [contradiction|].
      subst. apply Hnin. now left.
    + apply IH; [assumption|]. intro H. apply Hnin. now right.
Qed.

(** X7. In every state reached from a fresh process no list of
    references holds a name twice: every registered student's
    [enrolled_courses] and every registered course's
    [enrolled_students] is free of duplicates. *)
Theorem no_duplicate_references : forall cs,
  nodup_lists (exec initial cs).
Proof.
  intros cs.
  assert (H : forall k,
    (forall s, Dict.get Z.eqb (students (exec initial cs)) k = Some s ->
               NoDup (Student.enrolled_courses s)) /\
    (forall co, Dict.get Z.eqb (courses (exec initial cs)) k = Some co ->
                NoDup (Course.enrolled_students co))).
  { intro k.
    apply (objects_exec (fun s => NoDup (Student.enrolled_courses s))
                        (fun c => NoDup (Course.enrolled_students c)));
      cbn; intros; try (now constructor); auto using nodup_snoc. }
  split; intros k x Hx; [apply (proj1 (H k)) | apply (proj2 (H k))];
    exact Hx.
Qed.

(** X8. In every state reached from a fresh process the grades of every
    registered student are sound: each recorded grade lies between 0 and
    100, and a course name has at most one entry (a later grade replaces
    the earlier one). *)
Theorem grades_stay_sound : forall cs k s,
  Dict.get Z.eqb (students (exec initial cs)) k = Some s ->
  grades_sound s /\
  forall course g,
    Dict.get String.eqb (Student.grades s) course = Some g -> 0 <= g <= 100.
Proof.
  intros cs k s Hs.
  assert (Hg : grades_sound s).
  { revert s Hs.
    apply (objects_exec grades_sound (fun _ => True));
      unfold grades_sound; cbn; intros; auto.
    - split; constructor.
    - destruct H as [Hk Hv]. split.
      + now apply (set_keys_nodup String.eqb String.eqb_eq).
      + now apply (set_values_forall String.eqb
                     (fun x => 0 <= x <= 100)). }
  split; [exact Hg|].
  intros course g H. destruct Hg as [_ Hv].
  induction (Student.grades s) as [|[c1 g1] r IH]; simpl in H;
    [discriminate|].
  inversion Hv as [|x l Hx Hr]; subst.
  destruct (String.eqb course c1); [injection H as <-; exact Hx | auto].
Qed.

(** Amina's grade for Biology is replaced, not added to. *)
Lemma grades_stay_sound_witness :
  grades_sound (Student.mk 1 "Amina" [("Biology", 70)] ["Biology"]).
Proof.
  apply (grades_stay_sound
           [AddStudent "Amina"; AddCourse "Biology"; EnrollCourse 1 1;
            RecordGrade 1 1 90; RecordGrade 1 1 300; RecordGrade 1 1 70]
           1 (Student.mk 1 "Amina" [("Biology", 70)] ["Biology"])).
  reflexivity.
Defined.

(** ** What [record_grade] touches *)

Lemma set_present_length : forall (d : list (string * Z)) k v v0,
  Dict.get String.eqb d k = Some v0 ->
  List.length (Dict.set String.eqb d k v) = List.length d.
Proof.
  induction d as [|[k1 v1] r IH]; intros k v v0 H; simpl in *;
    [discriminate|].
  destruct (String.eqb k k1); simpl; [reflexivity|].
  f_equal. now apply IH with v0.
Qed.

(** X9. [record_grade] looks at the ids before it looks at the grade:
    with an unregistered student or course id it prints
    "Invalid student or course ID." and changes nothing, whatever the
    grade, and does not raise. It never changes the courses, the
    counters or any other student. For a registered pair and a grade from
    0 to 100 it changes nothing of the student but the grade stored
    under the course's name: id, name, enrolled courses and the grades of
    other course names stay, and the number of grade entries stays when
    that course name already had a grade. *)
Theorem record_grade_touches_one_entry : forall w i j g,
  let o := SystemManager.record_grade w i j g in
  (Dict.get Z.eqb (students w) i = None \/
   Dict.get Z.eqb (courses w) j = None ->
   o = mkOutcome w ["Invalid student or course ID."] (Returned tt)) /\
  courses (after o) = courses w /\
  Student_id_counter (after o) = Student_id_counter w /\
  Course_id_counter (after o) = Course_id_counter w /\
  (forall k, k <> i ->
     Dict.get Z.eqb (students (after o)) k = Dict.get Z.eqb (students w) k) /\
  (forall s c,
     Dict.get Z.eqb (students w) i = Some s ->
     Dict.get Z.eqb (courses w) j = Some c ->
     0 <= g <= 100 ->
     exists s',
       Dict.get Z.eqb (students (after o)) i = Some s' /\
       Student.student_id s' = Student.student_id s /\
       Student.name s' = Student.name s /\
       Student.enrolled_courses s' = Student.enrolled_courses s /\
       Dict.get String.eqb (Student.grades s') (Course.name c) = Some g /\
       (forall m, m <> Course.name c ->
          Dict.get String.eqb (Student.grades s') m
          = Dict.get String.eqb (Student.grades s) m) /\
       (forall g0,
          Dict.get String.eqb (Student.grades s) (Course.name c) = Some g0 ->
          List.length (Student.grades s') = List.length (Student.grades s))).
Proof.
  intros w i j g o. subst o. unfold SystemManager.record_grade.
  split.
  { intros [H | H]; rewrite H; [reflexivity|].
    destruct (Dict.get Z.eqb (students w) i); reflexivity. }
  split; [|split; [|split; [|split]]].
  - unfold Student.add_grade. manager_cases; reflexivity.
  - unfold Student.add_grade. manager_cases; reflexivity.
  - unfold Student.add_grade. manager_cases; reflexivity.
  - intros k Hk. unfold Student.add_grade. manager_cases; cbn;
      try reflexivity.
    now apply (get_set_other Z.eqb Z.eqb_eq).
  - intros s c Hs Hc Hg. rewrite Hs, Hc.
    rewrite add_grade_in_range by assumption. cbn.
    eexists. split; [apply (get_set_same Z.eqb Z.eqb_eq)|]. cbn.
    repeat split.
    + apply (get_set_same String.eqb String.eqb_eq).
    + intros m Hm. now apply (get_set_other String.eqb String.eqb_eq).
    + intros g0 H0. now apply set_present_length with g0.
Qed.

(** An unknown student with an impossible grade, and a second grade for
    Amina's Biology. *)
Lemma record_grade_touches_one_entry_witness :
  SystemManager.record_grade amina_enrolled 9 1 500
  = mkOutcome amina_enrolled ["Invalid student or course ID."]
      (Returned tt) /\
  exists s',
    Dict.get Z.eqb
      (students (after (SystemManager.record_grade amina_enrolled 1 1 70)))
      1 = Some s' /\
    Student.enrolled_courses s' = ["Biology"].
Proof.
  split.
  - apply (proj1 (record_grade_touches_one_entry amina_enrolled 9 1 500)).
    left. reflexivity.
  - destruct (proj2 (proj2 (proj2 (proj2 (proj2
               (record_grade_touches_one_entry amina_enrolled 1 1 70)))))
               (Student.mk 1 "Amina" [] ["Biology"])
               (Course.mk 1 "Biology" ["Amina"]) eq_refl eq_refl)
      as [s' [H1 [_ [_ [H2 _]]]]]; [lia|].
    exists s'. split; [exact H1 | exact H2].
Defined.

(** ** Enrolled for good *)

(** X10. The manager has no call that takes a student out of a course.
    Once [enroll_course] has succeeded for a student and a course, every
    later [remove_student] of that student and every later
    [remove_course] of that course is refused with its "Cannot remove"
    line and changes nothing, whatever calls are made in between (in a
    state whose keys lie below the class counters). *)
Theorem enrolled_never_removed : forall w student_id course_id cs,
  counters_fresh w ->
  enroll_succeeds w student_id course_id ->
  let w2 :=
    exec (after (SystemManager.enroll_course w student_id course_id)) cs in
  SystemManager.remove_student w2 student_id
  = mkOutcome w2 ["Student has enrolled courses. Cannot remove."]
      (Returned tt) /\
  SystemManager.remove_course w2 course_id
  = mkOutcome w2 ["Course has enrolled students. Cannot remove."]
      (Returned tt).
Proof.
  intros w student_id course_id cs Hw Hok w2.
  assert (Hl : linked w2 student_id course_id).
  { apply linked_exec; [|now apply enroll_links].
    apply (counters_fresh_step w (EnrollCourse student_id course_id) Hw). }
  destruct Hl as [s [c [Hs [Hc [H1 H2]]]]].
  unfold SystemManager.remove_student, SystemManager.remove_course.
  rewrite Hs, Hc.
  destruct (Student.enrolled_courses s); [destruct H1|].
  destruct (Course.enrolled_students c); [destruct H2|].
  split; reflexivity.
Qed.

(** Amina and Biology after more students and courses have come. *)
Lemma enrolled_never_removed_witness :
  let w2 :=
    exec (after (SystemManager.enroll_course amina_biology 1 1))
      [AddStudent "Bilal"; AddCourse "Math"; EnrollCourse 2 2;
       RecordGrade 1 1 80] in
  SystemManager.remove_course w2 1
  = mkOutcome w2 ["Course has enrolled students. Cannot remove."]
      (Returned tt).
Proof.
  apply (enrolled_never_removed amina_biology 1 1
           [AddStudent "Bilal"; AddCourse "Math"; EnrollCourse 2 2;
            RecordGrade 1 1 80]).
  - apply reachable_fresh.
    exists [AddStudent "Amina"; AddCourse "Biology"]. reflexivity.
  - exact amina_can_enroll.
Defined.

(** ** The methods of [Course] on one object *)

Lemma list_remove_snoc : forall l x,
  ~ In x l -> Course.list_remove x (l ++ [x]) = l.
Proof.
  induction l as [|y r IH]; intros x H; simpl.
  - now rewrite String.eqb_refl.
  - destruct (String.eqb_spec x y) as [-> | Hne].
    + exfalso. apply H. now left.
    + f_equal. apply IH. intro Hin. apply H. now right.
Qed.

Lemma list_remove_in : forall l x y,
  In y (Course.list_remove x l) -> In y l.
Proof.
  induction l as [|z r IH]; intros x y H; simpl in *; [contradiction|].
  destruct (String.eqb x z); [now right|].
  destruct H as [<- | H]; [now left | right; eauto].
Qed.

Lemma list_remove_other : forall l x y,
  y <> x -> In y l -> In y (Course.list_remove x l).
Proof.
  induction l as [|z r IH]; intros x y Hne H; simpl in *; [contradiction|].
  destruct (String.eqb_spec x z) as [-> | Hxz].
  - destruct H as [<- | H]; [contradiction | exact H].
  - destruct H as [<- | H]; [now left | right; now apply IH].
Qed.

Lemma list_remove_nodup : forall l x,
  NoDup l -> NoDup (Course.list_remove x l) /\ ~ In x (Course.list_remove x l).
Proof.
  induction l as [|z r IH]; intros x H; simpl.
  - split; [constructor | intros []].
  - inversion H as [|y l' Hz Hr]; subst.
    destruct (String.eqb_spec x z) as [-> | Hxz].
    + now split.
    + destruct (IH x Hr) as [Hnd Hnin]. split.
      * constructor; [|exact Hnd]. intro Hin.
        apply Hz. eapply list_remove_in. exact Hin.
      * intros [-> | Hin]; [now apply Hxz | now apply Hnin].
Qed.

Lemma list_remove_absent : forall l x,
  ~ In x l -> Course.list_remove x l = l.
Proof.
  induction l as [|z r IH]; intros x H; simpl; [reflexivity|].
  destruct (String.eqb_spec x z) as [-> | Hxz].
  - exfalso. apply H. now left.
  - f_equal. apply IH. intro Hin. apply H. now right.
Qed.

(** X11. On a course whose list has no duplicates, [enroll_student]
    leaves the student's name in the list exactly once and a second
    call changes nothing; [remove_student] leaves the list without that
    name and with every other name it had; removing a name that was
    just enrolled (and was not there before) gives back the course as it
    was, and removing an absent name changes nothing. Both methods keep
    the list free of duplicates, and the sibling class of
    [src/PY/STD/Course.py] computes the same objects (only the printed
    lines differ). *)
Theorem course_methods : forall c student,
  NoDup (Course.enrolled_students c) ->
  let c1 := fst (Course.enroll_student c student) in
  let c2 := fst (Course.remove_student c student) in
  (In student (Course.enrolled_students c1) /\
   NoDup (Course.enrolled_students c1) /\
   fst (Course.enroll_student c1 student) = c1) /\
  (~ In student (Course.enrolled_students c2) /\
   NoDup (Course.enrolled_students c2) /\
   forall x, x <> student ->
     (In x (Course.enrolled_students c2) <->
      In x (Course.enrolled_students c))) /\
  (~ In student (Course.enrolled_students c) ->
   fst (Course.remove_student c1 student) = c /\ c2 = c) /\
  fst (CourseSTD.enroll_student c student) = c1 /\
  fst (CourseSTD.remove_student c student) = c2.
Proof.
  intros c student Hnd c1 c2. subst c1 c2.
  unfold Course.enroll_student, Course.remove_student,
         CourseSTD.enroll_student, CourseSTD.remove_student.
  destruct c as [id name l].
  cbn [Course.enrolled_students Course.name Course.course_id] in *.
  destruct (str_in student l) eqn:E;
    cbn [negb fst Course.enrolled_students Course.set_enrolled_students
         Course.name Course.course_id].
  - apply str_in_iff in E as Hin.
    destruct (list_remove_nodup l student Hnd) as [Hnd' Hnin].
    rewrite E. cbn [negb fst].
    split; [|split; [|split]].
    + auto.
    + split; [exact Hnin | split; [exact Hnd'|]].
      intros x Hx. split;
        [apply list_remove_in | now apply list_remove_other].
    + intro H. contradiction.
    + split; reflexivity.
  - assert (Hnin : ~ In student l).
    { intro Hin. apply str_in_iff in Hin. congruence. }
    assert (E' : str_in student (l ++ [student]) = true).
    { apply str_in_iff, in_or_app. right. now left. }
    rewrite E'.
    cbn [negb fst Course.enrolled_students Course.set_enrolled_students
         Course.name Course.course_id].
    split; [|split; [|split]].
    + split; [apply in_or_app; right; now left|].
      split; [now apply nodup_snoc | reflexivity].
    + split; [exact Hnin | split; [exact Hnd|]]. intros x Hx. reflexivity.
    + intros _. rewrite list_remove_snoc by assumption. split; reflexivity.
    + split; reflexivity.
Qed.

(** Bilal joins and leaves a course that Amina is in. *)
Lemma course_methods_witness :
  fst (Course.remove_student
         (fst (Course.enroll_student (Course.mk 1 "Biology" ["Amina"])
                 "Bilal")) "Bilal")
  = Course.mk 1 "Biology" ["Amina"].
Proof.
  assert (Hnd : NoDup ["Amina"%string])
    by (constructor; [intros [] | constructor]).
  destruct (course_methods (Course.mk 1 "Biology" ["Amina"]) "Bilal" Hnd)
    as [_ [_ [H _]]].
  apply H. intros [E | []]. discriminate E.
Defined.

(** ** The stricter [Student] of [src/PY/STD/student.py] *)

Lemma sibling_step_keeps : forall s c,
  NoDup (Student.enrolled_courses s) /\
  grades_sound s /\
  (forall m g, Dict.get String.eqb (Student.grades s) m = Some g ->
               In m (Student.enrolled_courses s)) ->
  forall s', student_step s c = Returned s' ->
  Student.student_id s' = Student.student_id s /\
  Student.name s' = Student.name s /\
  incl (Student.enrolled_courses s) (Student.enrolled_courses s') /\
  NoDup (Student.enrolled_courses s') /\
  grades_sound s' /\
  (forall m g, Dict.get String.eqb (Student.grades s') m = Some g ->
               In m (Student.enrolled_courses s')).
Proof.
  intros s c [Hnd [[Hk Hv] Hsub]] s' H.
  destruct c as [course | course grade]; cbn in H.
  - unfold StudentSTD.enroll_in_course in H.
    destruct (str_in course (Student.enrolled_courses s)) eqn:E;
      [discriminate|].
    injection H as <-. cbn.
    repeat split; try assumption.
    + apply incl_appl, incl_refl.
    + now apply nodup_snoc.
    + intros m g Hm. apply in_or_app. left. eauto.
  - unfold StudentSTD.add_grade in H.
    destruct (str_in course (Student.enrolled_courses s)) eqn:E;
      [|discriminate]. cbn in H.
    destruct (Z.leb_spec 0 grade); destruct (Z.leb_spec grade 100);
      cbn in H; try discriminate.
    injection H as <-. cbn.
    repeat split; try assumption.
    + apply incl_refl.
    + now apply (set_keys_nodup String.eqb String.eqb_eq).
    + apply (set_values_forall String.eqb (fun x => 0 <= x <= 100));
        [assumption | lia].
    + intros m g Hm. destruct (String.eqb_spec m course) as [-> | Hne].
      * now apply str_in_iff.
      * rewrite (get_set_other String.eqb String.eqb_eq) in Hm
          by assumption.
        eauto.
Qed.

(** X12. For a student object made by the constructor of the stricter
    class and then used through [enroll_in_course] and [add_grade] in any
    order (calls that raise leave it as it was), the id and the name
    never change, [enrolled_courses] has no duplicates, every grade lies
    between 0 and 100 with one entry per course, and there is a grade
    only for a course the student is enrolled in. *)
Theorem sibling_student_invariant : forall n name s0 n' cs,
  StudentSTD.init n name = Returned (s0, n') ->
  let s := student_exec s0 cs in
  Student.student_id s = n /\
  Student.name s = name /\
  NoDup (Student.enrolled_courses s) /\
  grades_sound s /\
  (forall m g, Dict.get String.eqb (Student.grades s) m = Some g ->
               In m (Student.enrolled_courses s)).
Proof.
  intros n name s0 n' cs Hinit s. subst s.
  assert (H0 : Student.student_id s0 = n /\ Student.name s0 = name /\
               NoDup (Student.enrolled_courses s0) /\ grades_sound s0 /\
               (forall m g,
                  Dict.get String.eqb (Student.grades s0) m = Some g ->
                  In m (Student.enrolled_courses s0))).
  { unfold StudentSTD.init, Student.init in Hinit.
    destruct (String.eqb name EmptyString); [discriminate|].
    injection Hinit as <- _. cbn.
    repeat split; try constructor. intros m g H. discriminate H. }
  clear Hinit. revert s0 H0.
  induction cs as [|c r IH]; intros s0 H0; [exact H0|].
  cbn [student_exec fold_left]. apply IH.
  destruct (student_step s0 c) as [s'|e] eqn:E; [|exact H0].
  destruct H0 as [Hid [Hname Hrest]].
  destruct (sibling_step_keeps s0 c Hrest s' E)
    as [Hid' [Hname' [_ Hrest']]].
  split; [congruence | split; [congruence | exact Hrest']].
Qed.

(** Grading before enrolling is refused, grading after is kept. *)
Lemma sibling_student_invariant_witness :
  student_exec (Student.mk 7 "Amina" [] [])
    [AddGrade "Biology" 90; EnrollInCourse "Biology";
     EnrollInCourse "Biology"; AddGrade "Biology" 101;
     AddGrade "Biology" 80]
  = Student.mk 7 "Amina" [("Biology", 80)] ["Biology"] /\
  grades_sound
    (student_exec (Student.mk 7 "Amina" [] [])
       [AddGrade "Biology" 90; EnrollInCourse "Biology";
        EnrollInCourse "Biology"; AddGrade "Biology" 101;
        AddGrade "Biology" 80]).
Proof.
  split; [reflexivity|].
  apply (sibling_student_invariant 7 "Amina" (Student.mk 7 "Amina" [] []) 8
           [AddGrade "Biology" 90; EnrollInCourse "Biology";
            EnrollInCourse "Biology"; AddGrade "Biology" 101;
            AddGrade "Biology" 80]).
  reflexivity.
Defined.

(** X13. The two [Student] classes agree wherever the stricter one
    accepts a call: when its [enroll_in_course] or [add_grade] returns,
    the class the manager imports makes the same update and prints
    nothing. Where the stricter [enroll_in_course] raises (the course is
    already in the list) the other one prints
    "... is already enrolled in ..." and leaves the object as it was;
    and whenever the lax [add_grade] raises, the stricter one raises
    too. *)
Theorem siblings_agree : forall s course grade,
  (forall s', StudentSTD.enroll_in_course s course = Returned s' ->
              Student.enroll_in_course s course = (s', [])) /\
  (raises (StudentSTD.enroll_in_course s course) ->
   Student.enroll_in_course s course
   = (s, [(Student.name s ++ " is already enrolled in " ++ course)%string])) /\
  (forall s', StudentSTD.add_grade s course grade = Returned s' ->
              Student.add_grade s course grade = Returned s') /\
  (raises (Student.add_grade s course grade) ->
   raises (StudentSTD.add_grade s course grade)).
Proof.
  intros s course grade.
  unfold StudentSTD.enroll_in_course, Student.enroll_in_course,
         StudentSTD.add_grade, Student.add_grade.
  destruct (str_in course (Student.enrolled_courses s));
    destruct (negb ((0 <=? grade) && (grade <=? 100)));
    cbn; repeat split; intros;
    try discriminate; try congruence;
    try (match goal with H : raises (Returned _) |- _ =>
           destruct H as [e He]; discriminate He end);
    try (eexists; reflexivity).
Qed.

(** ** Searching without regard to case *)




(** ** Who may be removed, in a tidy registry *)

Lemma sview_inv : forall w i n l,
  sview w i = Some (n, l) ->
  exists s, Dict.get Z.eqb (students w) i = Some s /\
            Student.name s = n /\ Student.enrolled_courses s = l.
Proof.
  intros w i n l H. unfold sview in H.
  destruct (Dict.get Z.eqb (students w) i) as [s|]; [|discriminate].
  cbn in H. injection H as <- <-. now exists s.
Qed.

Lemma cview_inv : forall w j m r,
  cview w j = Some (m, r) ->
  exists c, Dict.get Z.eqb (courses w) j = Some c /\
            Course.name c = m /\ Course.enrolled_students c = r.
Proof.
  intros w j m r H. unfold cview in H.
  destruct (Dict.get Z.eqb (courses w) j) as [c|]; [|discriminate].
  cbn in H. injection H as <- <-. now exists c.
Qed.

Lemma sview_of : forall w i s,
  Dict.get Z.eqb (students w) i = Some s ->
  sview w i = Some (Student.name s, Student.enrolled_courses s).
Proof. intros w i s H. unfold sview. now rewrite H. Qed.

Lemma cview_of : forall w j c,
  Dict.get Z.eqb (courses w) j = Some c ->
  cview w j = Some (Course.name c, Course.enrolled_students c).
Proof. intros w j c H. unfold cview. now rewrite H. Qed.

Lemma remove_student_succeeds_iff : forall w i s,
  Dict.get Z.eqb (students w) i = Some s ->
  (In "Student removed successfully."
      (printed (SystemManager.remove_student w i)) <->
   Student.enrolled_courses s = []).
Proof.
  intros w i s Hs. unfold SystemManager.remove_student. rewrite Hs.
  destruct (Student.enrolled_courses s); cbn; split; intro H;
    try reflexivity; try discriminate; auto.
  destruct H as [H | []]. discriminate H.
Qed.

Lemma remove_course_succeeds_iff : forall w j c,
  Dict.get Z.eqb (courses w) j = Some c ->
  (In "Course removed successfully."
      (printed (SystemManager.remove_course w j)) <->
   Course.enrolled_students c = []).
Proof.
  intros w j c Hc. unfold SystemManager.remove_course. rewrite Hc.
  destruct (Course.enrolled_students c); cbn; split; intro H;
    try reflexivity; try discriminate; auto.
  destruct H as [H | []]. discriminate H.
Qed.

(** X15. In a tidy registry (names identify the registered objects, as
    when no registered name is reused) the test that [remove_student]
    makes on the student's own list decides what the registry as a whole
    says: a registered student is removed exactly when no registered
    course lists the student's name, and a registered course is removed
    exactly when no registered student lists the course's name. *)
Theorem removal_criterion : forall w,
  tidy w ->
  (forall i s,
     Dict.get Z.eqb (students w) i = Some s ->
     (In "Student removed successfully."
         (printed (SystemManager.remove_student w i)) <->
      forall j c, Dict.get Z.eqb (courses w) j = Some c ->
                  ~ In (Student.name s) (Course.enrolled_students c))) /\
  (forall j c,
     Dict.get Z.eqb (courses w) j = Some c ->
     (In "Course removed successfully."
         (printed (SystemManager.remove_course w j)) <->
      forall i s, Dict.get Z.eqb (students w) i = Some s ->
                  ~ In (Course.name c) (Student.enrolled_courses s))).
Proof.
  intros w [_ Hv]. split.
  - intros i s Hs. rewrite (remove_student_succeeds_iff w i s Hs). split.
    + intros Hl j c Hc Hin.
      apply (tv_sym _ _ Hv i _ _ j _ _ (sview_of _ _ _ Hs)
               (cview_of _ _ _ Hc)) in Hin.
      rewrite Hl in Hin. destruct Hin.
    + intro Hnone.
      destruct (Student.enrolled_courses s) as [|m l] eqn:El;
        [reflexivity|]. exfalso.
      pose proof (sview_of _ _ _ Hs) as Hsv. rewrite El in Hsv.
      destruct (tv_cclosed _ _ Hv i _ _ m Hsv) as [j [r Hj]];
        [now left|].
      destruct (cview_inv _ _ _ _ Hj) as [c [Hc [Hn Hr]]].
      apply (Hnone j c Hc). rewrite Hr.
      apply (tv_sym _ _ Hv i _ _ j _ _ Hsv Hj). now left.
  - intros j c Hc. rewrite (remove_course_succeeds_iff w j c Hc). split.
    + intros Hl i s Hs Hin.
      apply (tv_sym _ _ Hv i _ _ j _ _ (sview_of _ _ _ Hs)
               (cview_of _ _ _ Hc)) in Hin.
      rewrite Hl in Hin. destruct Hin.
    + intro Hnone.
      destruct (Course.enrolled_students c) as [|n r] eqn:El;
        [reflexivity|]. exfalso.
      pose proof (cview_of _ _ _ Hc) as Hcv. rewrite El in Hcv.
      destruct (tv_sclosed _ _ Hv j _ _ n Hcv) as [i [l Hi]];
        [now left|].
      destruct (sview_inv _ _ _ _ Hi) as [s [Hs [Hn Hl]]].
      apply (Hnone i s Hs). rewrite Hl.
      apply (tv_sym _ _ Hv i _ _ j _ _ Hi Hcv). now left.
Qed.

(** Amina is listed by Biology, so she stays. *)
Lemma removal_criterion_witness :
  ~ In "Student removed successfully."
      (printed (SystemManager.remove_student amina_enrolled 1)).
Proof.
  intro H.
  assert (Ht : tidy amina_enrolled)
    by (apply tidy_exec; [apply tidy_initial | reflexivity]).
  apply (proj1 (proj1 (removal_criterion amina_enrolled Ht)
                  1 (Student.mk 1 "Amina" [] ["Biology"]) eq_refl) H
           1 (Course.mk 1 "Biology" ["Amina"]) eq_refl).
  now left.
Defined.

(** ** No dangling references *)

Section LiveRefs.

Lemma refs_live_ext : forall S C S' C',
  (forall k, S' k = S k) -> (forall k, C' k = C k) ->
  refs_live S C -> refs_live S' C'.
Proof.
  intros S C S' C' HS HC H k n l m Hk Hin. rewrite HS in Hk.
  destruct (H k n l m Hk Hin) as [j [r [Hj Hr]]].
  exists j, r. now rewrite HC.
Qed.

(** A new or a removed entry on the left. *)
Lemma refs_live_left : forall S C k n,
  refs_live S C ->
  refs_live (upd S k (Some (n, []))) C /\ refs_live (upd S k None) C.
Proof.
  intros S C k n H. split; intros k0 n0 l m Hk Hin; unfold upd in Hk;
    destruct (Z.eqb k0 k).
  - injection Hk as <- <-. destruct Hin.
  - eauto.
  - discriminate.
  - eauto.
Qed.

(** A new entry on the right, under an unused key. *)
Lemma refs_live_add_right : forall S C k m,
  refs_live S C -> C k = None -> refs_live S (upd C k (Some (m, []))).
Proof.
  intros S C k m H Hk k0 n l m0 Hk0 Hin.
  destruct (H k0 n l m0 Hk0 Hin) as [j [r [Hj Hr]]].
  exists j, r. split; [|exact Hr]. unfold upd.
  destruct (Z.eqb_spec j k); [congruence | exact Hj].
Qed.

(** An entry with an empty list goes on the right. *)
Lemma refs_live_del_right : forall S C k m,
  refs_live S C -> C k = Some (m, []) -> refs_live S (upd C k None).
Proof.
  intros S C k m H Hk k0 n l m0 Hk0 Hin.
  destruct (H k0 n l m0 Hk0 Hin) as [j [r [Hj Hr]]].
  exists j, r. split; [|exact Hr]. unfold upd.
  destruct (Z.eqb_spec j k) as [-> | Hne]; [|exact Hj].
  rewrite Hk in Hj. injection Hj as _ <-. contradiction.
Qed.

(** A list on the right grows. *)
Lemma refs_live_grow_right : forall S C j m r x,
  refs_live S C -> C j = Some (m, r) ->
  refs_live S (upd C j (Some (m, r ++ [x]))).
Proof.
  intros S C j m r x H Hj k0 n l m0 Hk0 Hin.
  destruct (H k0 n l m0 Hk0 Hin) as [j0 [r0 [Hj0 Hr0]]].
  destruct (Z.eq_dec j0 j) as [-> | Hne].
  - exists j, (r ++ [x]). rewrite Hj in Hj0. injection Hj0 as <- <-.
    split; [unfold upd; now rewrite Z.eqb_refl|].
    intro E. destruct r; discriminate E.
  - exists j0, r0. split; [|exact Hr0]. unfold upd.
    destruct (Z.eqb_spec j0 j); [contradiction | exact Hj0].
Qed.

(** A list on the left gets the name of a live object. *)
Lemma refs_live_append_left : forall S C i n l m,
  refs_live S C -> S i = Some (n, l) ->
  (exists j r, C j = Some (m, r) /\ r <> []) ->
  refs_live (upd S i (Some (n, l ++ [m]))) C.
Proof.
  intros S C i n l m H Hi Hm k0 n0 l0 m0 Hk0 Hin. unfold upd in Hk0.
  destruct (Z.eqb k0 i) eqn:E.
  - injection Hk0 as <- <-. apply in_app_iff in Hin.
    destruct Hin as [Hin | [<- | []]]; eauto.
  - eauto.
Qed.

End LiveRefs.

Lemma no_dangling_views : forall w,
  no_dangling w <->
  refs_live (sview w) (cview w) /\ refs_live (cview w) (sview w).
Proof.
  intro w. split.
  - intros [H1 H2]. split.
    + intros k n l m Hk Hin.
      destruct (sview_inv _ _ _ _ Hk) as [s [Hs [<- <-]]].
      destruct (H1 k s m Hs Hin) as [j [c [Hc [<- Hne]]]].
      exists j, (Course.enrolled_students c).
      split; [now apply cview_of | exact Hne].
    + intros j m r n Hj Hin.
      destruct (cview_inv _ _ _ _ Hj) as [c [Hc [<- <-]]].
      destruct (H2 j c n Hc Hin) as [k [s [Hs [<- Hne]]]].
      exists k, (Student.enrolled_courses s).
      split; [now apply sview_of | exact Hne].
  - intros [H1 H2]. split.
    + intros k s m Hs Hin.
      destruct (H1 k _ _ m (sview_of _ _ _ Hs) Hin) as [j [r [Hj Hr]]].
      destruct (cview_inv _ _ _ _ Hj) as [c [Hc [Hn Hl]]].
      exists j, c. rewrite Hl. auto.
    + intros j c n Hc Hin.
      destruct (H2 j _ _ n (cview_of _ _ _ Hc) Hin) as [k [l [Hk Hl]]].
      destruct (sview_inv _ _ _ _ Hk) as [s [Hs [Hn Hl']]].
      exists k, s. rewrite Hl'. auto.
Qed.

Lemma live_refs_step : forall w c,
  counters_fresh w /\
  refs_live (sview w) (cview w) /\ refs_live (cview w) (sview w) ->
  refs_live (sview (after (step w c))) (cview (after (step w c))) /\
  refs_live (cview (after (step w c))) (sview (after (step w c))).
Proof.
  intros w c [Hfresh [H1 H2]].
  assert (Hsame : refs_live (sview w) (cview w) /\
                  refs_live (cview w) (sview w)) by now split.
  destruct c as [name | i | name | i | i j | q | i j g | | ];
    cbn [step cast after]; try exact Hsame.
  - (* add_student *)
    unfold SystemManager.add_student, Student.init.
    destruct (String.eqb name EmptyString); cbn [after]; [exact Hsame|].
    split.
    + apply refs_live_ext
        with (S := upd (sview w) (Student_id_counter w) (Some (name, [])))
             (C := cview w);
        [intro k; unfold sview; cbn; apply view_set | reflexivity |].
      now apply refs_live_left.
    + apply refs_live_ext
        with (S := cview w)
             (C := upd (sview w) (Student_id_counter w) (Some (name, [])));
        [reflexivity | intro k; unfold sview; cbn; apply view_set |].
      apply refs_live_add_right; [exact H2 | now apply fresh_student_key].
  - (* remove_student *)
    unfold SystemManager.remove_student.
    destruct (Dict.get Z.eqb (students w) i) as [s|] eqn:Hs;
      [|exact Hsame].
    destruct (Student.enrolled_courses s) eqn:Hl; [|exact Hsame].
    cbn [after]. split.
    + apply refs_live_ext with (S := upd (sview w) i None) (C := cview w);
        [intro k; unfold sview; cbn; apply view_del | reflexivity |].
      now apply (refs_live_left _ _ i EmptyString).
    + apply refs_live_ext with (S := cview w) (C := upd (sview w) i None);
        [reflexivity | intro k; unfold sview; cbn; apply view_del |].
      apply refs_live_del_right with (m := Student.name s); [exact H2|].
      rewrite (sview_of _ _ _ Hs). now rewrite Hl.
  - (* add_course *)
    unfold SystemManager.add_course, Course.init. cbn [after]. split.
    + apply refs_live_ext
        with (S := sview w)
             (C := upd (cview w) (Course_id_counter w) (Some (name, [])));
        [reflexivity | intro k; unfold cview; cbn; apply view_set |].
      apply refs_live_add_right; [exact H1 | now apply fresh_course_key].
    + apply refs_live_ext
        with (S := upd (cview w) (Course_id_counter w) (Some (name, [])))
             (C := sview w);
        [intro k; unfold cview; cbn; apply view_set | reflexivity |].
      now apply refs_live_left.
  - (* remove_course *)
    unfold SystemManager.remove_course.
    destruct (Dict.get Z.eqb (courses w) i) as [co|] eqn:Hc;
      [|exact Hsame].
    destruct (Course.enrolled_students co) eqn:Hl; [|exact Hsame].
    cbn [after]. split.
    + apply refs_live_ext with (S := sview w) (C := upd (cview w) i None);
        [reflexivity | intro k; unfold cview; cbn; apply view_del |].
      apply refs_live_del_right with (m := Course.name co); [exact H1|].
      rewrite (cview_of _ _ _ Hc). now rewrite Hl.
    + apply refs_live_ext with (S := upd (cview w) i None) (C := sview w);
        [intro k; unfold cview; cbn; apply view_del | reflexivity |].
      now apply (refs_live_left _ _ i EmptyString).
  - (* enroll_course *)
    destruct (Dict.get Z.eqb (students w) i) as [s|] eqn:Hs.
    2:{ rewrite enroll_unknown by now left. exact Hsame. }
    destruct (Dict.get Z.eqb (courses w) j) as [co|] eqn:Hc.
    2:{ rewrite enroll_unknown by now right. exact Hsame. }
    destruct (str_in (Course.name co) (Student.enrolled_courses s)) eqn:Hin.
    { rewrite (enroll_duplicate _ _ _ s co) by assumption. exact Hsame. }
    rewrite (enroll_fresh _ _ _ s co) by assumption. cbn [after].
    pose proof (sview_of _ _ _ Hs) as Hsi.
    pose proof (cview_of _ _ _ Hc) as Hcj.
    set (S' := upd (sview w) i
                 (Some (Student.name s,
                        Student.enrolled_courses s ++ [Course.name co]))).
    assert (HS' : forall k,
      sview (mkWorld (Student_id_counter w) (Course_id_counter w)
               (Dict.set Z.eqb (students w) i
                  (Student.set_enrolled_courses s
                     (Student.enrolled_courses s ++ [Course.name co])))
               (Dict.set Z.eqb (courses w) j
                  (fst (Course.enroll_student co (Student.name s))))) k
      = S' k).
    { intro k. unfold sview. cbn. apply view_set. }
    unfold Course.enroll_student in *.
    destruct (str_in (Student.name s) (Course.enrolled_students co)) eqn:E;
      cbn [negb fst] in *.
    + (* the name is in the course's list already *)
      assert (Hr : Course.enrolled_students co <> []).
      { apply str_in_iff in E. intro H0. rewrite H0 in E. destruct E. }
      split.
      * apply refs_live_ext with (S := S') (C := cview w); [exact HS' | |].
        -- intro k. unfold cview. cbn. rewrite view_set.
           apply upd_same. now rewrite Hc.
        -- apply refs_live_append_left; [exact H1 | exact Hsi|].
           eauto.
      * apply refs_live_ext with (S := cview w) (C := S'); [| exact HS' |].
        -- intro k. unfold cview. cbn. rewrite view_set.
           apply upd_same. now rewrite Hc.
        -- now apply refs_live_grow_right.
    + (* both lists grow *)
      set (C' := upd (cview w) j
                   (Some (Course.name co,
                          Course.enrolled_students co ++ [Student.name s]))).
      assert (HC' : forall k,
        cview (mkWorld (Student_id_counter w) (Course_id_counter w)
                 (Dict.set Z.eqb (students w) i
                    (Student.set_enrolled_courses s
                       (Student.enrolled_courses s ++ [Course.name co])))
                 (Dict.set Z.eqb (courses w) j
                    (Course.set_enrolled_students co
                       (Course.enrolled_students co ++ [Student.name s])))) k
        = C' k).
      { intro k. unfold cview. cbn. apply view_set. }
      split.
      * apply refs_live_ext with (S := S') (C := C'); [exact HS' | exact HC' |].
        apply refs_live_append_left.
        -- now apply refs_live_grow_right.
        -- exact Hsi.
        -- exists j, (Course.enrolled_students co ++ [Student.name s]).
           split; [unfold C', upd; now rewrite Z.eqb_refl|].
           intro H0. destruct (Course.enrolled_students co); discriminate H0.
      * apply refs_live_ext with (S := C') (C := S'); [exact HC' | exact HS' |].
        apply refs_live_append_left.
        -- now apply refs_live_grow_right.
        -- exact Hcj.
        -- exists i, (Student.enrolled_courses s ++ [Course.name co]).
           split; [unfold S', upd; now rewrite Z.eqb_refl|].
           intro H0. destruct (Student.enrolled_courses s); discriminate H0.
  - (* record_grade *)
    unfold SystemManager.record_grade, Student.add_grade.
    destruct (Dict.get Z.eqb (students w) i) as [s|] eqn:Hs;
      [|exact Hsame].
    destruct (Dict.get Z.eqb (courses w) j) as [co|]; [|exact Hsame].
    destruct (negb ((0 <=? g) && (g <=? 100))); cbn [after]; [exact Hsame|].
    assert (HS : forall k,
      sview (mkWorld (Student_id_counter w) (Course_id_counter w)
               (Dict.set Z.eqb (students w) i
                  (Student.set_grades s
                     (Dict.set String.eqb (Student.grades s)
                        (Course.name co) g)))
               (courses w)) k = sview w k).
    { intro k. unfold sview at 1. cbn. rewrite view_set. cbn.
      apply upd_same. now rewrite Hs. }
    split.
    + apply refs_live_ext with (S := sview w) (C := cview w);
        [exact HS | reflexivity | exact H1].
    + apply refs_live_ext with (S := cview w) (C := sview w);
        [reflexivity | exact HS | exact H2].
Qed.

(** X16. No dangling references: in every state reached from a fresh
    process, every name in a registered student's [enrolled_courses] is
    the name of a registered course that has at least one enrolled
    student, and every name in a registered course's
    [enrolled_students] is the name of a registered student that has at
    least one enrolled course. This needs no assumption on the names. *)
Theorem no_dangling_references : forall cs,
  no_dangling (exec initial cs).
Proof.
  intros cs. apply no_dangling_views.
  assert (H : forall cs w,
    counters_fresh w /\
    refs_live (sview w) (cview w) /\ refs_live (cview w) (sview w) ->
    refs_live (sview (exec w cs)) (cview (exec w cs)) /\
    refs_live (cview (exec w cs)) (sview (exec w cs))).
  { clear cs. induction cs as [|c r IH]; intros w Hw; [apply Hw|].
    apply IH. split; [apply counters_fresh_step, Hw|].
    now apply live_refs_step. }
  apply H. split; [apply initial_fresh|].
  split; intros k n l m Hk; discriminate Hk.
Qed.

(** ** How the listings change *)

Lemma values_del : forall (V : Type) (id : V -> Z) n (d : list (Z * V)) k,
  in_id_order id n d ->
  Dict.values (Dict.del Z.eqb d k)
  = filter (fun v => negb (Z.eqb k (id v))) (Dict.values d).
Proof.
  intros V id n d k [_ Hf]. unfold Dict.values, Dict.del.
  induction d as [|[k1 v1] r IH]; simpl; [reflexivity|].
  inversion Hf as [|x l [_ Hid] Hr]; subst. cbn in Hid. rewrite Hid.
  destruct (Z.eqb k k1); cbn; [|f_equal]; now apply IH.
Qed.

Lemma keys_below : forall (V : Type) (id : V -> Z) n (d : list (Z * V)),
  in_id_order id n d -> Forall (fun kv => fst kv < n) d.
Proof.
  intros V id n d [_ Hf]. eapply Forall_impl; [|exact Hf].
  cbn. intros kv H. lia.
Qed.

(** X17. The listings keep the order of arrival. In every state reached
    from a fresh process, a successful [add_student] puts the new
    student (current counter as id, no grades, no courses) at the end of
    what [get_all_students] returns, [add_course] puts the new course at
    the end of what [get_all_courses] returns, and a successful
    [remove_student] or [remove_course] takes exactly the object with
    that id out of the listing and keeps the others in their order. *)
Theorem listings_follow_arrival : forall cs,
  let w := exec initial cs in
  (forall name,
     name <> EmptyString ->
     ret (SystemManager.get_all_students
            (after (SystemManager.add_student w name)))
     = Returned (Dict.values (students w)
                 ++ [Student.mk (Student_id_counter w) name [] []])) /\
  (forall name,
     ret (SystemManager.get_all_courses
            (after (SystemManager.add_course w name)))
     = Returned (Dict.values (courses w)
                 ++ [Course.mk (Course_id_counter w) name []])) /\
  (forall i s,
     Dict.get Z.eqb (students w) i = Some s ->
     Student.enrolled_courses s = [] ->
     ret (SystemManager.get_all_students
            (after (SystemManager.remove_student w i)))
     = Returned (filter (fun s' => negb (Z.eqb i (Student.student_id s')))
                   (Dict.values (students w)))) /\
  (forall j c,
     Dict.get Z.eqb (courses w) j = Some c ->
     Course.enrolled_students c = [] ->
     ret (SystemManager.get_all_courses
            (after (SystemManager.remove_course w j)))
     = Returned (filter (fun c' => negb (Z.eqb j (Course.course_id c')))
                   (Dict.values (courses w)))).
Proof.
  intros cs w.
  destruct (registry_in_order_exec cs initial initial_in_order) as [Hs Hc].
  fold w in Hs, Hc. split; [|split; [|split]].
  - intros name Hname. unfold SystemManager.add_student, Student.init.
    destruct (String.eqb_spec name EmptyString); [contradiction|].
    cbn. rewrite set_above by (eapply keys_below; exact Hs).
    unfold Dict.values. now rewrite map_app.
  - intros name. cbn.
    rewrite set_above by (eapply keys_below; exact Hc).
    unfold Dict.values. now rewrite map_app.
  - intros i s Hi Hl. unfold SystemManager.remove_student.
    rewrite Hi, Hl. cbn. f_equal.
    now apply values_del with (n := Student_id_counter w).
  - intros j c Hj Hl. unfold SystemManager.remove_course.
    rewrite Hj, Hl. cbn. f_equal.
    now apply values_del with (n := Course_id_counter w).
Qed.

(** Chadi arrives after Amina and Bilal; then Amina leaves. *)
Lemma listings_follow_arrival_witness :
  ret (SystemManager.get_all_students
         (after (SystemManager.add_student bilal_joined "Chadi")))
  = Returned [Student.mk 1 "Amina" [] []; Student.mk 2 "Bilal" [] [];
              Student.mk 3 "Chadi" [] []] /\
  ret (SystemManager.get_all_students
         (after (SystemManager.remove_student bilal_joined 1)))
  = Returned [Student.mk 2 "Bilal" [] []].
Proof.
  split.
  - apply (proj1 (listings_follow_arrival
                    [AddStudent "Amina"; AddStudent "Bilal"]) "Chadi").
    discriminate.
  - apply (proj1 (proj2 (proj2 (listings_follow_arrival
                    [AddStudent "Amina"; AddStudent "Bilal"])))
             1 (Student.mk 1 "Amina" [] []) eq_refl eq_refl).
Defined.

(** The strict class refuses a second enrollment where the lax one
    prints; a grade in range for an enrolled course is the same in both. *)
Lemma siblings_agree_witness :
  Student.enroll_in_course (Student.mk 1 "Amina" [] ["Biology"]) "Biology"
  = (Student.mk 1 "Amina" [] ["Biology"],
     ["Amina is already enrolled in Biology"]) /\
  Student.add_grade (Student.mk 1 "Amina" [] ["Biology"]) "Biology" 90
  = Returned (Student.mk 1 "Amina" [("Biology", 90)] ["Biology"]).
Proof.
  destruct (siblings_agree (Student.mk 1 "Amina" [] ["Biology"])
              "Biology" 90) as [_ [H1 [H2 _]]].
  split.
  - apply H1. eexists. reflexivity.
  - apply H2. reflexivity.
Defined.

